(** * brew-compat: the manifest reader, the version resolver and the
      compatibility evaluator of [check.py]

    The development embeds the three core functions of [check.py]
    ([get_formulae], [get_supported_versions], [get_status]) together with
    the tables they consult, and proves the properties the specification
    states about them.

    Conventions of the embedding.
    - A Python [str] is a [string]; one [ascii] stands for one character.
    - A value decoded by [response.json()] is a [pyval].  A [dict] is kept
      as an association list in insertion order, read by first match; a
      [float] is kept by its [repr], the only thing the program does with
      one is format it.
    - The module-level dictionaries [support_matrix] and [metadata] are
      finite maps keyed by strings.
    - A Python computation ends by returning, by raising, or by
      [sys.exit]: the three constructors of [outcome].  Code that talks to
      the world (the file system, the HTTP API, the log) threads the list
      of events it has produced so far. *)

From Stdlib Require Import String Ascii ZArith List.
From stdpp Require Import base option list gmap strings pretty.

Local Open Scope string_scope.
Local Open Scope Z_scope.

(** ** Outcomes of a Python computation *)

Inductive exn : Type :=
  | KeyError
  | TypeError
  | IndexError
  | AttributeError
  | FileNotFoundError
  | JSONDecodeError
  | MissingSchema
  | InvalidSchema.

Inductive outcome (A : Type) : Type :=
  | Ret (a : A)
  | Raise (e : exn)
  | SysExit (code : Z).

Arguments Ret {A} a.
Arguments Raise {A} e.
Arguments SysExit {A} code.

#[global] Instance exn_eq_dec : EqDecision exn.
Proof. solve_decision. Defined.

Module Pure.

Definition bind {A B : Type} (m : outcome A) (k : A -> outcome B) : outcome B :=
  match m with
  | Ret a => k a
  | Raise e => Raise e
  | SysExit c => SysExit c
  end.

(** [try: m except KeyError: h] *)
Definition except_KeyError {A : Type} (m : outcome A) (h : outcome A) : outcome A :=
  match m with
  | Raise KeyError => h
  | _ => m
  end.

End Pure.

#[global] Instance outcome_ret : MRet outcome := @Ret.
#[global] Instance outcome_bind : MBind outcome :=
  fun A B k m => Pure.bind m k.

(** ** Values decoded from a JSON body *)

#[warnings="-register-all"]
Inductive pyval : Type :=
  | PyNone
  | PyBool (b : bool)
  | PyInt (n : Z)
  | PyFloat (repr : string)
  | PyStr (s : string)
  | PyList (l : list pyval)
  | PyDict (d : list (string * pyval)).

(** [d.get(k)] on an insertion-ordered dictionary. *)
Fixpoint dict_get {V : Type} (d : list (string * V)) (k : string) : option V :=
  match d with
  | [] => None
  | (k', v) :: d' => if String.eqb k' k then Some v else dict_get d' k
  end.

(** [d.keys()], in insertion order. *)
Definition dict_keys {V : Type} (d : list (string * V)) : list string :=
  map fst d.

(** [v[k]] for a string [k]: only a [dict] can be subscripted by a string;
    a missing key is a [KeyError], every other receiver a [TypeError]. *)
Definition getitem (v : pyval) (k : string) : outcome pyval :=
  match v with
  | PyDict d =>
      match dict_get d k with
      | Some x => Ret x
      | None => Raise KeyError
      end
  | _ => Raise TypeError
  end.

(** [v[0]]: the first element of a list, the first character of a string;
    a [dict] decoded from JSON has string keys only, so [0] is a missing
    key. *)
Definition getitem0 (v : pyval) : outcome pyval :=
  match v with
  | PyDict _ => Raise KeyError
  | PyList [] => Raise IndexError
  | PyList (x :: _) => Ret x
  | PyStr EmptyString => Raise IndexError
  | PyStr (String c _) => Ret (PyStr (String c EmptyString))
  | _ => Raise TypeError
  end.

(** [v.keys()]: an attribute of [dict] alone. *)
Definition keys (v : pyval) : outcome (list string) :=
  match v with
  | PyDict d => Ret (dict_keys d)
  | _ => Raise AttributeError
  end.

(** *** [str] and [repr] of a decoded value, as [str.format] uses them *)

Definition quote : ascii := "034"%char.
Definition newline : ascii := "010"%char.

Definition char_in (c : ascii) (s : string) : bool :=
  existsb (Ascii.eqb c) (list_ascii_of_string s).

Definition hex_digit (n : N) : ascii :=
  match n with
  | 0%N => "0" | 1%N => "1" | 2%N => "2" | 3%N => "3"
  | 4%N => "4" | 5%N => "5" | 6%N => "6" | 7%N => "7"
  | 8%N => "8" | 9%N => "9" | 10%N => "a" | 11%N => "b"
  | 12%N => "c" | 13%N => "d" | 14%N => "e" | _ => "f"
  end%char.

Definition repr_char (q c : ascii) : string :=
  let n := N_of_ascii c in
  if Ascii.eqb c "\"%char then "\\"
  else if Ascii.eqb c q then String "\"%char (String q EmptyString)
  else if (n =? 10)%N then "\n"
  else if (n =? 13)%N then "\r"
  else if (n =? 9)%N then "\t"
  else if ((n <? 32) || (n =? 127))%N
       then String "\"%char (String "x"%char
              (String (hex_digit (n / 16)) (String (hex_digit (n mod 16)) EmptyString)))
  else String c EmptyString.

Fixpoint repr_chars (q : ascii) (s : string) : string :=
  match s with
  | EmptyString => EmptyString
  | String c s' => repr_char q c ++ repr_chars q s'
  end.

(** [repr] of a [str]: single quotes, unless the text has a single quote
    and no double quote. *)
Definition repr_str (s : string) : string :=
  let q := if char_in "'"%char s && negb (char_in quote s)
           then quote else "'"%char in
  String q (repr_chars q s ++ String q EmptyString).

Fixpoint py_repr (v : pyval) : string :=
  match v with
  | PyNone => "None"
  | PyBool true => "True"
  | PyBool false => "False"
  | PyInt n => pretty n
  | PyFloat r => r
  | PyStr s => repr_str s
  | PyList l =>
      "[" ++ (fix items (l : list pyval) : string :=
                match l with
                | [] => ""
                | [x] => py_repr x
                | x :: l' => py_repr x ++ ", " ++ items l'
                end) l ++ "]"
  | PyDict d =>
      "{" ++ (fix items (d : list (string * pyval)) : string :=
                match d with
                | [] => ""
                | [(k, x)] => repr_str k ++ ": " ++ py_repr x
                | (k, x) :: d' => repr_str k ++ ": " ++ py_repr x ++ ", " ++ items d'
                end) d ++ "}"
  end.

(** ["{}".format(v)] *)
Definition py_str (v : pyval) : string :=
  match v with
  | PyStr s => s
  | _ => py_repr v
  end.

(** ** Module-level tables of [check.py] *)

Definition macos_versions : list string :=
  ["arm64_big_sur"; "big_sur"; "catalina"; "mojave"; "high_sierra"; "sierra"; "el_capitan"].

Definition support_matrix : gmap string (list string) :=
  list_to_map [
    (">=11.0", ["arm64big_sur"; "big_sur"]);
    (">=10.16", ["arm64big_sur"; "big_sur"]);
    (">=10.15", ["arm64big_sur"; "big_sur"; "catalina"]);
    (">=10.14", ["arm64big_sur"; "big_sur"; "catalina"; "mojave"]);
    (">=10.13", ["arm64big_sur"; "big_sur"; "catalina"; "mojave"; "high_sierra"]);
    (">=10.12", ["arm64big_sur"; "big_sur"; "catalina"; "mojave"; "high_sierra"; "sierra"]);
    (">=10.11", ["arm64big_sur"; "big_sur"; "catalina"; "mojave"; "high_sierra"; "el_capitan"])
  ].

Definition metadata : gmap string string :=
  list_to_map [
    ("brew", "https://formulae.brew.sh/api/formula");
    ("cask", "https://formulae.brew.sh/api/cask")
  ].

Definition export_file : string := "compatibility.csv".

Record SupportStatus : Type := mkSupportStatus {
  kind : string;
  formula_name : string;
  status : string
}.

#[global] Instance SupportStatus_eq_dec : EqDecision SupportStatus.
Proof. solve_decision. Defined.

(** ** The version resolver *)

(** [support_matrix[k]] *)
Definition support_matrix_getitem (k : string) : outcome (list string) :=
  match support_matrix !! k with
  | Some versions => Ret versions
  | None => Raise KeyError
  end.

(** [data["depends_on"]["macos"][">="][0]] *)
Definition cask_minimum (data : pyval) : outcome pyval :=
  d ← getitem data "depends_on";
  m ← getitem d "macos";
  ge ← getitem m ">=";
  getitem0 ge.

Definition get_supported_versions (data : pyval) (formula_type : string)
  : outcome (list string) :=
  let versions : list string := [] in
  versions ←
    (if String.eqb formula_type "brew" then
       b ← getitem data "bottle";
       s ← getitem b "stable";
       f ← getitem s "files";
       keys f
     else mret versions);
  if String.eqb formula_type "cask" then
    x ← cask_minimum data;
    let depends_on := ">=" ++ py_str x in
    support_matrix_getitem depends_on
  else mret versions.

Definition get_type (formula_type : string) : string :=
  let kind := "Unknown" in
  let kind := if String.eqb formula_type "brew" then "Bottle" else kind in
  let kind := if String.eqb formula_type "cask" then "Application" else kind in
  kind.

(** ** The world outside the program *)

Record response : Type := mkResponse {
  status_code : Z;
  (** the body as [response.json()] decodes it; [None] when the body is
      not JSON.  *)
  json : option pyval
}.

(** The file system as [open(path, "r")] sees it (the text of a file, after
    Python's newline translation, or nothing at that path) and the remote
    API as [requests.get] sees it: every request that is sent is answered,
    a transport that fails is outside the model.  The program only reads
    both. *)
Record world : Type := mkWorld {
  fs : string -> option string;
  api : string -> response
}.

(** What the program does to the world, in order.  Of [logger]'s lines
    the trace keeps those of level INFO and above; [logger.debug] lines
    format text and raise nothing, and are left out. *)
Inductive event : Type :=
  | EvLog (level : string) (msg : string)
  | EvOpen (path : string)
  | EvGet (url : string)
  | EvPrint (rows : list SupportStatus)
  | EvWrite (path : string) (rows : list SupportStatus).

Definition IO (A : Type) : Type := list event -> outcome A * list event.

(** Whether [requests] sends a request to an address: it does for an
    address with the scheme [http] or [https]. *)
Definition sendable (url : string) : bool :=
  String.prefix "http://" url || String.prefix "https://" url.

(** What [requests] raises for an address it does not send, before
    anything leaves the machine: [InvalidSchema] when the address holds a
    colon (no connection adapter for what stands before it),
    [MissingSchema] when it holds none. *)
Definition refusal (url : string) : exn :=
  if char_in ":"%char url then InvalidSchema else MissingSchema.

Module Eff.

Definition ret {A : Type} (a : A) : IO A := fun tr => (Ret a, tr).

Definition bind {A B : Type} (m : IO A) (k : A -> IO B) : IO B :=
  fun tr =>
    match m tr with
    | (Ret a, tr') => k a tr'
    | (Raise e, tr') => (Raise e, tr')
    | (SysExit c, tr') => (SysExit c, tr')
    end.

Definition emit (e : event) : IO unit := fun tr => (Ret tt, (tr ++ [e])%list).

Definition lift {A : Type} (m : outcome A) : IO A := fun tr => (m, tr).

(** [sys.exit(code)] *)
Definition sys_exit {A : Type} (code : Z) : IO A := lift (SysExit code).

(** [open(path, "r")] followed by reading the whole text *)
Definition open_read (w : world) (path : string) : IO string :=
  fun tr =>
    match fs w path with
    | Some text => (Ret text, (tr ++ [EvOpen path])%list)
    | None => (Raise FileNotFoundError, (tr ++ [EvOpen path])%list)
    end.

(** [requests.get(url)].  The addresses of this program are built by
    [endpoint]: they start with one of the two bases of [metadata], and
    are sent, or with [None], and are refused. *)
Definition http_get (w : world) (url : string) : IO response :=
  fun tr =>
    if sendable url then (Ret (api w url), (tr ++ [EvGet url])%list)
    else (Raise (refusal url), tr).

(** [response.json()] *)
Definition response_json (r : response) : IO pyval :=
  match json r with
  | Some v => ret v
  | None => lift (Raise JSONDecodeError)
  end.

End Eff.

#[global] Instance IO_ret : MRet IO := @Eff.ret.
#[global] Instance IO_bind : MBind IO := fun A B k m => Eff.bind m k.

Definition logger_error (msg : string) : IO unit := Eff.emit (EvLog "ERROR" msg).
Definition logger_warning (msg : string) : IO unit := Eff.emit (EvLog "WARNING" msg).
Definition logger_info (msg : string) : IO unit := Eff.emit (EvLog "INFO" msg).

(** ** The manifest reader *)

(** [f.readlines()]: the text cut after every newline; each line keeps its
    newline, the last line has one only if the text ends with one. *)
Fixpoint readlines_from (cur : string) (text : string) : list string :=
  match text with
  | EmptyString => if String.eqb cur "" then [] else [cur]
  | String c text' =>
      if Ascii.eqb c newline
      then (cur ++ String c EmptyString) :: readlines_from "" text'
      else readlines_from (cur ++ String c EmptyString) text'
  end.

Definition readlines (text : string) : list string := readlines_from "" text.

(** The regular expression [pattern]: a double quote, one
    or more characters other than a newline, as few as possible, and a
    double quote.

    [lazy_close s] continues a match whose group already holds one
    character: it yields the further characters of the group when [s]
    reaches a closing quote before a newline or the end. *)
Fixpoint lazy_close (s : string) : option string :=
  match s with
  | EmptyString => None
  | String c s' =>
      if Ascii.eqb c quote then Some EmptyString
      else if Ascii.eqb c newline then None
      else String c <$> lazy_close s'
  end.

(** [re.match(pattern, s)]: the matched text, [match.group()]. *)
Definition re_match (s : string) : option string :=
  match s with
  | String q (String c s') =>
      if Ascii.eqb q quote && negb (Ascii.eqb c newline)
      then (fun g => String quote (String c (g ++ String quote EmptyString)))
             <$> lazy_close s'
      else None
  | _ => None
  end.

(** [re.search(pattern, s)]: the match at the leftmost position that has
    one. *)
Fixpoint re_search (s : string) : option string :=
  match re_match s with
  | Some m => Some m
  | None =>
      match s with
      | EmptyString => None
      | String _ s' => re_search s'
      end
  end.

(** [s.replace(q, e)], with [q] the double-quote character and [e] the
    empty text *)
Fixpoint remove_quotes (s : string) : string :=
  match s with
  | EmptyString => EmptyString
  | String c s' =>
      if Ascii.eqb c quote then remove_quotes s' else String c (remove_quotes s')
  end.

(** The body of the loop over [f.readlines()]. *)
Fixpoint formulae_of_lines (formula_type : string) (lines : list string)
    (formulae : list string) : list string :=
  match lines with
  | [] => formulae
  | line :: lines' =>
      let formulae :=
        if String.prefix formula_type line then
          match re_search line with
          | Some m => (formulae ++ [remove_quotes m])%list
          | None => formulae
          end
        else formulae in
      formulae_of_lines formula_type lines' formulae
  end.

Definition get_formulae (w : world) (brewfile formula_type : string)
  : IO (list string) :=
  match metadata !! formula_type with
  | None =>
      logger_error ("Unsupported formula type: " ++ formula_type ++ ". Exiting...");;
      Eff.sys_exit 1
  | Some _ =>
      text ← Eff.open_read w brewfile;
      mret (formulae_of_lines formula_type (readlines text) [])
  end.

(** ** The compatibility evaluator *)

(** ["{}/{}.json".format(metadata.get(formula_type), formula_name)] *)
Definition endpoint (formula_type formula_name : string) : string :=
  default "None" (metadata !! formula_type) ++ "/" ++ formula_name ++ ".json".

(** [macos_version in supported_versions] *)
Definition contains (supported_versions : list string) (macos_version : string) : bool :=
  bool_decide (macos_version ∈ supported_versions).

(** The [try] block of [get_status] with its [except KeyError]. *)
Definition status_of_content (content : pyval) (formula_type macos_version : string)
    (kind formula_name : string) : outcome SupportStatus :=
  Pure.except_KeyError
    (supported_versions ← get_supported_versions content formula_type;
     if contains supported_versions macos_version
     then mret (mkSupportStatus kind formula_name "Supported")
     else mret (mkSupportStatus kind formula_name "Unsupported"))
    (mret (mkSupportStatus kind formula_name "No info")).

Fixpoint get_status_loop (w : world) (formula_type macos_version kind : string)
    (formulae : list string) (statuses : list SupportStatus)
  : IO (list SupportStatus) :=
  match formulae with
  | [] => mret statuses
  | formula_name :: formulae' =>
      let endpoint := endpoint formula_type formula_name in
      response ← Eff.http_get w endpoint;
      status ←
        (if status_code response =? 200 then
           content ← Eff.response_json response;
           Eff.lift (status_of_content content formula_type macos_version
                       kind formula_name)
         else
           logger_warning ("Unknown formula: " ++ formula_name);;
           mret (mkSupportStatus kind formula_name "Unknown"));
      get_status_loop w formula_type macos_version kind formulae'
        (statuses ++ [status])%list
  end.

Definition get_status (w : world) (formulae : list string)
    (formula_type macos_version : string) : IO (list SupportStatus) :=
  let kind := get_type formula_type in
  get_status_loop w formula_type macos_version kind formulae [].

(** ** The command line *)

Record arguments : Type := mkArguments {
  arg_brewfile : string;
  arg_macos_version : string;
  arg_verbose : bool;
  arg_export : bool
}.

Definition display (support_statuses : list SupportStatus) : IO unit :=
  Eff.emit (EvPrint support_statuses).

Definition export (support_statuses : list SupportStatus) : IO unit :=
  Eff.emit (EvWrite export_file support_statuses).

(** [cli], from the parsed arguments on.  [--macos-version] is declared
    with [choices=macos_versions]: the parser leaves with code 2 on any
    other value. *)
Definition cli (w : world) (args : arguments) : IO unit :=
  if negb (contains macos_versions (arg_macos_version args)) then Eff.sys_exit 2
  else
    match fs w (arg_brewfile args) with
    | None =>
        logger_error ("Brewfile does not exist: " ++ arg_brewfile args ++ ". Exiting");;
        Eff.sys_exit 1
    | Some _ =>
        logger_info "Brewfile exists!";;
        logger_info ("Using Brewfile: " ++ arg_brewfile args);;
        logger_info ("Checking compatibility for " ++ arg_macos_version args);;
        logger_info "Getting details from Homebrew API for formulae, hold on...";;
        core_formulae ← get_formulae w (arg_brewfile args) "brew";
        cask_formulae ← get_formulae w (arg_brewfile args) "cask";
        result ← get_status w core_formulae "brew" (arg_macos_version args);
        cask_result ← get_status w cask_formulae "cask" (arg_macos_version args);
        let result := (result ++ cask_result)%list in
        display result;;
        if arg_export args then
          export result;;
          logger_info ("Exported results to " ++ export_file)
        else mret tt
    end.

(** ** The exported text *)

Definition carriage_return : ascii := "013"%char.

(** The text of a field with each double quote doubled, as [csv.writer]
    writes it under [quotechar] and its default [doublequote]. *)
Fixpoint csv_escape (s : string) : string :=
  match s with
  | EmptyString => EmptyString
  | String c s' =>
      if Ascii.eqb c quote then String quote (String quote (csv_escape s'))
      else String c (csv_escape s')
  end.

(** One field under [QUOTE_ALL]. *)
Definition csv_field (s : string) : string :=
  String quote (csv_escape s ++ String quote EmptyString).

(** The fields of a row, joined by the delimiter. *)
Fixpoint csv_fields (fields : list string) : string :=
  match fields with
  | [] => EmptyString
  | [f] => csv_field f
  | f :: fields' => csv_field f ++ String ","%char (csv_fields fields')
  end.

(** [writer.writerow(fields)]: the text handed to the file, the row and
    the writer's line terminator. *)
Definition writerow (fields : list string) : string :=
  csv_fields fields ++ String carriage_return (String newline EmptyString).

(** The rows of the loop of [export]. *)
Fixpoint export_rows (support_statuses : list SupportStatus) : string :=
  match support_statuses with
  | [] => EmptyString
  | support_status :: rest =>
      writerow [kind support_status; formula_name support_status;
                status support_status]
      ++ export_rows rest
  end.

(** The text [export] writes to [export_file]: the header row, then one
    row per record. *)
Definition export_text (support_statuses : list SupportStatus) : string :=
  writerow ["kind"; "formula"; "status"] ++ export_rows support_statuses.

(** ** Notions of the specification

    The definitions below follow the words of the specification, not the
    code; the theorems compare the program with them. *)

(** *** Quoted tokens of a manifest line *)

(** The text of [s] before its first double quote, and the text after
    that quote. *)
Fixpoint cut_at_quote (s : string) : option (string * string) :=
  match s with
  | EmptyString => None
  | String c s' =>
      if Ascii.eqb c quote then Some (EmptyString, s')
      else (fun p : string * string => (String c p.1, p.2)) <$> cut_at_quote s'
  end.

(** The content of the first double-quoted token of a line: the text
    between the first double quote of the line and the next one. *)
Definition first_quoted_token (line : string) : option string :=
  match cut_at_quote line with
  | None => None
  | Some (_, rest) => fst <$> cut_at_quote rest
  end.

(** The same, for a token that must have a content: when the first two
    quotes of the line are adjacent, the text between the second quote
    and the third takes the place of the content. *)
Definition nonempty_quoted_token (line : string) : option string :=
  match cut_at_quote line with
  | None => None
  | Some (_, rest) =>
      match cut_at_quote rest with
      | None => None
      | Some (EmptyString, rest') => fst <$> cut_at_quote rest'
      | Some (content, _) => Some content
      end
  end.

(** The contents of all the double-quoted tokens of a line, the quotes
    paired in order: first with second, third with fourth, and so on.
    [inside] holds the content read so far when a token is open. *)
Fixpoint quoted_tokens_from (inside : option string) (s : string) : list string :=
  match s with
  | EmptyString => []
  | String c s' =>
      if Ascii.eqb c quote then
        match inside with
        | None => quoted_tokens_from (Some EmptyString) s'
        | Some content => content :: quoted_tokens_from None s'
        end
      else
        match inside with
        | None => quoted_tokens_from None s'
        | Some content =>
            quoted_tokens_from (Some (content ++ String c EmptyString)) s'
        end
  end.

Definition quoted_tokens (line : string) : list string :=
  quoted_tokens_from None line.

(** The names a manifest declares for a keyword, one for each line that
    starts with the keyword and has a token. *)
Definition declared_names (token : string -> option string)
    (keyword : string) (lines : list string) : list string :=
  flat_map
    (fun line =>
       if String.prefix keyword line then option_list (token line) else [])
    lines.

(** A line as [readlines] yields it: no newline, except as last
    character. *)
Fixpoint newline_last (s : string) : bool :=
  match s with
  | EmptyString => true
  | String c s' =>
      if Ascii.eqb c newline then String.eqb s' EmptyString else newline_last s'
  end.

Fixpoint no_newline (s : string) : bool :=
  match s with
  | EmptyString => true
  | String c s' => negb (Ascii.eqb c newline) && no_newline s'
  end.

(** *** Shapes of a response body *)

(** A body of Formula shape with a stable-bottle file listing [files]. *)
Definition has_bottle_files (data : pyval) (files : list (string * pyval)) : Prop :=
  exists d b s,
    data = PyDict d /\
    dict_get d "bottle" = Some (PyDict b) /\
    dict_get b "stable" = Some (PyDict s) /\
    dict_get s "files" = Some (PyDict files).

(** A body of Cask shape that declares the minimum OS version [x]: the
    first entry of the list under [depends_on], [macos], [>=]. *)
Definition declares_minimum (data : pyval) (x : pyval) : Prop :=
  exists d dep mac rest,
    data = PyDict d /\
    dict_get d "depends_on" = Some (PyDict dep) /\
    dict_get dep "macos" = Some (PyDict mac) /\
    dict_get mac ">=" = Some (PyList (x :: rest)).

(** *** Classification of one package *)

(** The four cases of the evaluator's contract, for the record [rec] of
    the package [name]. *)
Definition classified (w : world) (formula_type macos_version : string)
    (name : string) (rec : SupportStatus) : Prop :=
  let r := api w (endpoint formula_type name) in
  formula_name rec = name /\
  kind rec = get_type formula_type /\
  (forall content versions,
      status_code r = 200 -> json r = Some content ->
      get_supported_versions content formula_type = Ret versions ->
      macos_version ∈ versions -> status rec = "Supported") /\
  (forall content versions,
      status_code r = 200 -> json r = Some content ->
      get_supported_versions content formula_type = Ret versions ->
      macos_version ∉ versions -> status rec = "Unsupported") /\
  (forall content,
      status_code r = 200 -> json r = Some content ->
      get_supported_versions content formula_type = Raise KeyError ->
      status rec = "No info") /\
  (status_code r <> 200 -> status rec = "Unknown").

(** A response the evaluator's contract covers: not 200, or 200 with a
    JSON body on which resolution returns or fails on a missing key. *)
Definition covered (r : response) (formula_type : string) : Prop :=
  status_code r = 200 ->
  exists content,
    json r = Some content /\
    ((exists versions, get_supported_versions content formula_type = Ret versions) \/
     get_supported_versions content formula_type = Raise KeyError).

(** The record of one package, as a function of its response: the value
    the loop body of [get_status] computes. *)
Definition status_of_response (r : response) (formula_type macos_version : string)
    (kind formula_name : string) : outcome SupportStatus :=
  if status_code r =? 200 then
    match json r with
    | Some content =>
        status_of_content content formula_type macos_version kind formula_name
    | None => Raise JSONDecodeError
    end
  else Ret (mkSupportStatus kind formula_name "Unknown").

(** The events of one round of the loop. *)
Definition events_of_response (r : response) (formula_type formula_name : string)
  : list event :=
  EvGet (endpoint formula_type formula_name) ::
  (if status_code r =? 200 then []
   else [EvLog "WARNING" ("Unknown formula: " ++ formula_name)]).

(** Whether an event touches the manifest or the network. *)
Definition is_io (e : event) : bool :=
  match e with
  | EvOpen _ | EvGet _ => true
  | _ => false
  end.

(** *** Order of the constraints *)

(** The keys of the support matrix, from the lowest minimum version to
    the highest. *)
Definition constraints_ascending : list string :=
  [">=10.11"; ">=10.12"; ">=10.13"; ">=10.14"; ">=10.15"; ">=10.16"; ">=11.0"].

(** The pairs (lower, higher) of a list sorted upwards. *)
Fixpoint ordered_pairs {A : Type} (l : list A) : list (A * A) :=
  match l with
  | [] => []
  | x :: l' => (map (pair x) l' ++ ordered_pairs l')%list
  end.

(** Whether the set of the lower constraint holds every identifier of
    the set of the higher one. *)
Definition monotone_at (p : string * string) : bool :=
  match support_matrix !! p.1, support_matrix !! p.2 with
  | Some lower, Some higher => forallb (contains lower) higher
  | _, _ => false
  end.

(** *** Reading an exported text back *)

Inductive csv_state : Type :=
  | AtField
  | InField (acc : string)
  | AfterQuote (acc : string)
  | AfterReturn.

(** A reader of texts in which every field is quoted: a quote inside a
    field is written twice, a field ends at a single quote, a row at a
    carriage return and a newline.  [fields] are the fields of the row
    being read, [rows] the rows read so far. *)
Fixpoint csv_decode (st : csv_state) (fields : list string)
    (rows : list (list string)) (s : string) : option (list (list string)) :=
  match s with
  | EmptyString =>
      match st, fields with
      | AtField, [] => Some rows
      | _, _ => None
      end
  | String c s' =>
      match st with
      | AtField =>
          if Ascii.eqb c quote then csv_decode (InField EmptyString) fields rows s'
          else None
      | InField acc =>
          if Ascii.eqb c quote then csv_decode (AfterQuote acc) fields rows s'
          else csv_decode (InField (acc ++ String c EmptyString)) fields rows s'
      | AfterQuote acc =>
          if Ascii.eqb c quote
          then csv_decode (InField (acc ++ String quote EmptyString)) fields rows s'
          else if Ascii.eqb c ","%char
          then csv_decode AtField (fields ++ [acc])%list rows s'
          else if Ascii.eqb c carriage_return
          then csv_decode AfterReturn (fields ++ [acc])%list rows s'
          else None
      | AfterReturn =>
          if Ascii.eqb c newline
          then csv_decode AtField [] (rows ++ [fields])%list s'
          else None
      end
  end.

Definition fields_of (support_status : SupportStatus) : list string :=
  [kind support_status; formula_name support_status; status support_status].

(** How many times a character occurs in a text. *)
Fixpoint count_char (c : ascii) (s : string) : nat :=
  match s with
  | EmptyString => 0%nat
  | String a s' => ((if Ascii.eqb a c then 1 else 0) + count_char c s')%nat
  end.

(** *** Events of a run *)

(** The addresses requested, in order. *)
Definition requests (events : list event) : list string :=
  omap (fun e => match e with EvGet url => Some url | _ => None end) events.


(** An event of the evaluator: a request, or the warning for a package
    the API does not know. *)
Definition evaluator_event (e : event) : bool :=
  match e with
  | EvGet _ => true
  | EvLog level _ => String.eqb level "WARNING"
  | _ => false
  end.

(** The four statuses. *)
Definition status_values : list string :=
  ["Supported"; "Unsupported"; "No info"; "Unknown"].

(** *** Sample data *)

Definition q : string := String quote EmptyString.

Definition constant_api (r : response) : string -> response := fun _ => r.

Definition no_files : string -> option string := fun _ => None.

Definition one_file (path text : string) : string -> option string :=
  fun p => if String.eqb p path then Some text else None.

Definition brew_line (rest : string) : string := "brew " ++ rest ++ String newline EmptyString.

(** A line whose first quoted token is empty, followed by a second
    token. *)
Definition empty_token_line : string := brew_line (q ++ q ++ " " ++ q ++ "x" ++ q).

Definition cask_args_line : string :=
  "cask_args appdir: " ++ q ++ "/Applications" ++ q ++ String newline EmptyString.

Definition not_found : response := mkResponse 404 None.

Definition ok (content : pyval) : response := mkResponse 200 (Some content).

Definition bottle_body (files : list string) : pyval :=
  PyDict [("name", PyStr "wget");
          ("bottle", PyDict [("stable", PyDict [("files",
             PyDict (map (fun k => (k, PyDict [("url", PyStr "https://ghcr.io")])) files))])])].

Definition cask_body (minimum : pyval) : pyval :=
  PyDict [("token", PyStr "firefox");
          ("depends_on", PyDict [("macos", PyDict [(">=", PyList [minimum])])])].

(** * Properties *)

(** ** The tables *)

Lemma metadata_lookup (formula_type : string) :
  metadata !! formula_type =
    if String.eqb formula_type "brew" then Some "https://formulae.brew.sh/api/formula"
    else if String.eqb formula_type "cask" then Some "https://formulae.brew.sh/api/cask"
    else None.
Proof.
  unfold metadata. simpl.
  destruct (String.eqb_spec formula_type "brew") as [-> | Hb]; [done |].
  rewrite lookup_insert_ne by congruence.
  destruct (String.eqb_spec formula_type "cask") as [-> | Hc]; [done |].
  rewrite lookup_insert_ne by congruence.
  apply lookup_empty.
Qed.

Lemma support_matrix_entries :
  map_to_list support_matrix ≡ₚ
    [(">=11.0", ["arm64big_sur"; "big_sur"]);
     (">=10.16", ["arm64big_sur"; "big_sur"]);
     (">=10.15", ["arm64big_sur"; "big_sur"; "catalina"]);
     (">=10.14", ["arm64big_sur"; "big_sur"; "catalina"; "mojave"]);
     (">=10.13", ["arm64big_sur"; "big_sur"; "catalina"; "mojave"; "high_sierra"]);
     (">=10.12", ["arm64big_sur"; "big_sur"; "catalina"; "mojave"; "high_sierra"; "sierra"]);
     (">=10.11", ["arm64big_sur"; "big_sur"; "catalina"; "mojave"; "high_sierra"; "el_capitan"])].
Proof.
  unfold support_matrix. apply map_to_list_to_map.
  apply (bool_decide_unpack _). vm_compute. exact I.
Qed.

(** Every entry of [support_matrix] is one of the seven written in the
    source. *)
Lemma support_matrix_cases (k : string) (versions : list string) :
  support_matrix !! k = Some versions ->
  (k, versions) ∈
    [(">=11.0", ["arm64big_sur"; "big_sur"]);
     (">=10.16", ["arm64big_sur"; "big_sur"]);
     (">=10.15", ["arm64big_sur"; "big_sur"; "catalina"]);
     (">=10.14", ["arm64big_sur"; "big_sur"; "catalina"; "mojave"]);
     (">=10.13", ["arm64big_sur"; "big_sur"; "catalina"; "mojave"; "high_sierra"]);
     (">=10.12", ["arm64big_sur"; "big_sur"; "catalina"; "mojave"; "high_sierra"; "sierra"]);
     (">=10.11", ["arm64big_sur"; "big_sur"; "catalina"; "mojave"; "high_sierra"; "el_capitan"])].
Proof.
  intros H. rewrite <- support_matrix_entries. by apply elem_of_map_to_list.
Qed.

Ltac matrix_cases H :=
  apply support_matrix_cases in H;
  repeat (apply elem_of_cons in H; destruct H as [H | H]);
  [ injection H as -> -> .. | by apply elem_of_nil in H ].

Lemma arm64_big_sur_in_no_list (k : string) (versions : list string) :
  support_matrix !! k = Some versions -> "arm64_big_sur" ∉ versions.
Proof.
  intros H. matrix_cases H; apply (bool_decide_unpack _); vm_compute; exact I.
Qed.

(** ** The version resolver *)

Lemma dict_keys_get {V : Type} (d : list (string * V)) (k : string) :
  k ∈ dict_keys d <-> is_Some (dict_get d k).
Proof.
  induction d as [| [k' v] d IH]; simpl.
  - split; [intros H; by apply elem_of_nil in H | intros [? ?]; discriminate].
  - rewrite elem_of_cons. destruct (String.eqb_spec k' k) as [-> | Hne].
    + split; eauto.
    + rewrite <- IH. split; [intros [-> | ?]; [congruence | done] | auto].
Qed.

Lemma getitem_dict (d : list (string * pyval)) (k : string) (x : pyval) :
  dict_get d k = Some x -> getitem (PyDict d) k = Ret x.
Proof. intros H. simpl. by rewrite H. Qed.

Lemma cask_minimum_declared (data x : pyval) :
  declares_minimum data x -> cask_minimum data = Ret x.
Proof.
  intros (d & dep & mac & rest & -> & Hd & Hdep & Hmac).
  unfold cask_minimum.
  rewrite (getitem_dict _ _ _ Hd). simpl.
  rewrite Hdep. simpl. rewrite Hmac. reflexivity.
Qed.

(** What resolution does for a cask once the declared minimum is read. *)
Lemma get_supported_versions_cask_lookup (data x : pyval) :
  cask_minimum data = Ret x ->
  get_supported_versions data "cask" = support_matrix_getitem (">=" ++ py_str x).
Proof.
  intros H. unfold get_supported_versions. simpl. rewrite H. reflexivity.
Qed.

Lemma get_supported_versions_cask_found (data x : pyval) (versions : list string) :
  declares_minimum data x ->
  support_matrix !! (">=" ++ py_str x) = Some versions ->
  get_supported_versions data "cask" = Ret versions.
Proof.
  intros Hdecl Hk.
  rewrite (get_supported_versions_cask_lookup _ _ (cask_minimum_declared _ _ Hdecl)).
  unfold support_matrix_getitem. by rewrite Hk.
Qed.

(** ** The compatibility evaluator *)

Section Evaluator.

Variable w : world.
Variables formula_type macos_version kind : string.

Local Abbreviation record_of name :=
  (status_of_response (api w (endpoint formula_type name))
     formula_type macos_version kind name).

Local Abbreviation events_of :=
  (fun name =>
     events_of_response (api w (endpoint formula_type name)) formula_type name).

(** One round of the loop. *)
Lemma get_status_loop_round (name : string) (formulae : list string)
    (statuses : list SupportStatus) (tr : list event) :
  get_status_loop w formula_type macos_version kind (name :: formulae) statuses tr =
    if sendable (endpoint formula_type name) then
      match record_of name with
      | Ret rec =>
          get_status_loop w formula_type macos_version kind formulae
            (statuses ++ [rec])%list
            (tr ++ events_of_response (api w (endpoint formula_type name))
                     formula_type name)%list
      | Raise e => (Raise e, (tr ++ [EvGet (endpoint formula_type name)])%list)
      | SysExit c => (SysExit c, (tr ++ [EvGet (endpoint formula_type name)])%list)
      end
    else (Raise (refusal (endpoint formula_type name)), tr).
Proof.
  unfold status_of_response, events_of_response.
  cbn [get_status_loop].
  unfold mbind, IO_bind, Eff.bind, Eff.http_get.
  destruct (sendable (endpoint formula_type name)); [| reflexivity].
  destruct (status_code (api w (endpoint formula_type name)) =? 200).
  - unfold Eff.response_json.
    destruct (json (api w (endpoint formula_type name))) as [content |];
      cbn; [| reflexivity].
    destruct (status_of_content content formula_type macos_version kind name);
      reflexivity.
  - cbn. by rewrite <- app_assoc.
Qed.

(** One round of the loop, for an address that is sent. *)
Lemma get_status_loop_step (name : string) (formulae : list string)
    (statuses : list SupportStatus) (tr : list event) :
  sendable (endpoint formula_type name) = true ->
  get_status_loop w formula_type macos_version kind (name :: formulae) statuses tr =
    match record_of name with
    | Ret rec =>
        get_status_loop w formula_type macos_version kind formulae
          (statuses ++ [rec])%list
          (tr ++ events_of_response (api w (endpoint formula_type name))
                   formula_type name)%list
    | Raise e => (Raise e, (tr ++ [EvGet (endpoint formula_type name)])%list)
    | SysExit c => (SysExit c, (tr ++ [EvGet (endpoint formula_type name)])%list)
    end.
Proof. intros Hsend. by rewrite get_status_loop_round, Hsend. Qed.

(** A run that returns has computed one record per name, in order. *)
Lemma get_status_loop_returns (formulae : list string) :
  forall statuses tr recs tr',
    get_status_loop w formula_type macos_version kind formulae statuses tr
      = (Ret recs, tr') ->
    exists recs',
      recs = (statuses ++ recs')%list /\
      Forall2 (fun name rec => record_of name = Ret rec) formulae recs'.
Proof.
  induction formulae as [| name formulae IH]; intros statuses tr recs tr' H.
  - injection H as <- <-. exists []. by rewrite app_nil_r.
  - rewrite get_status_loop_round in H.
    destruct (sendable (endpoint formula_type name)); [| discriminate].
    destruct (record_of name) as [rec | e | c] eqn:Hrec; try discriminate.
    apply IH in H as (recs' & -> & HF).
    exists (rec :: recs'). split; [by rewrite <- app_assoc | by constructor].
Qed.

(** When every name has a record, the run returns them all. *)
Lemma get_status_loop_total (formulae : list string) :
  (forall name, sendable (endpoint formula_type name) = true) ->
  forall recs' statuses tr,
    Forall2 (fun name rec => record_of name = Ret rec) formulae recs' ->
    get_status_loop w formula_type macos_version kind formulae statuses tr
      = (Ret (statuses ++ recs')%list, (tr ++ flat_map events_of formulae)%list).
Proof.
  intros Hsend.
  induction formulae as [| name formulae IH]; intros recs' statuses tr HF.
  - inversion HF; subst. simpl. by rewrite !app_nil_r.
  - inversion HF as [| ? rec ? recs'' Hrec HF']; subst.
    rewrite (get_status_loop_step _ _ _ _ (Hsend name)), Hrec, (IH _ _ _ HF').
    simpl. by rewrite <- !app_assoc.
Qed.

(** The first name without a record ends the run, with the requests
    made so far in the trace and nothing returned. *)
Lemma get_status_loop_raises (done : list string) (name : string)
    (rest : list string) (e : exn) :
  (forall name, sendable (endpoint formula_type name) = true) ->
  forall recs' statuses tr,
    Forall2 (fun name rec => record_of name = Ret rec) done recs' ->
    record_of name = Raise e ->
    get_status_loop w formula_type macos_version kind
      (done ++ name :: rest)%list statuses tr
      = (Raise e,
         (tr ++ flat_map events_of done ++ [EvGet (endpoint formula_type name)])%list).
Proof.
  intros Hsend.
  induction done as [| name' done IH]; intros recs' statuses tr HF He.
  - cbn [app flat_map].
    by rewrite (get_status_loop_step _ _ _ _ (Hsend name)), He.
  - inversion HF as [| ? rec ? recs'' Hrec HF']; subst.
    rewrite <- app_comm_cons, (get_status_loop_step _ _ _ _ (Hsend name')),
      Hrec, (IH _ _ _ HF' He).
    cbn [flat_map]. by rewrite <- !app_assoc.
Qed.

End Evaluator.

(** The addresses of brew and cask are sent; for any other formula type
    the address starts with [None] and is refused. *)
Lemma sendable_endpoint (formula_type name : string) :
  formula_type = "brew" \/ formula_type = "cask" ->
  sendable (endpoint formula_type name) = true.
Proof.
  intros Hkind. unfold endpoint. rewrite metadata_lookup.
  by destruct Hkind as [-> | ->].
Qed.

Lemma endpoint_other_type (formula_type name : string) :
  formula_type <> "brew" -> formula_type <> "cask" ->
  endpoint formula_type name = "None/" ++ name ++ ".json" /\
  sendable (endpoint formula_type name) = false.
Proof.
  intros Hb Hc. unfold endpoint. rewrite metadata_lookup.
  destruct (String.eqb_spec formula_type "brew"); [done |].
  by destruct (String.eqb_spec formula_type "cask").
Qed.

Lemma status_of_response_classified (w : world)
    (formula_type macos_version name : string) (rec : SupportStatus) :
  status_of_response (api w (endpoint formula_type name))
    formula_type macos_version (get_type formula_type) name = Ret rec ->
  classified w formula_type macos_version name rec.
Proof.
  unfold classified, status_of_response.
  set (r := api w (endpoint formula_type name)).
  destruct (Z.eqb_spec (status_code r) 200) as [H200 | H200].
  - destruct (json r) as [content |] eqn:Hjson; [| discriminate].
    unfold status_of_content.
    destruct (get_supported_versions content formula_type)
      as [versions | e | c] eqn:Hres; cbn.
    + unfold contains. case_bool_decide as Hin; intros [= <-]; cbn;
        repeat split; try done; intros; simplify_eq; congruence.
    + destruct e; cbn; intros [= <-]; cbn;
        repeat split; try done; intros; simplify_eq; congruence.
    + discriminate.
  - intros [= <-]; cbn. repeat split; try done; intros; simplify_eq.
Qed.

Lemma status_of_response_covered (r : response)
    (formula_type macos_version kind name : string) :
  covered r formula_type ->
  exists rec, status_of_response r formula_type macos_version kind name = Ret rec.
Proof.
  unfold covered, status_of_response. intros Hcov.
  destruct (Z.eqb_spec (status_code r) 200) as [H200 | H200]; [| eauto].
  destruct (Hcov H200) as (content & -> & [[versions Hres] | Hres]);
    unfold status_of_content; rewrite Hres; cbn; [| eauto].
  destruct (contains versions macos_version); eauto.
Qed.

(** A cask is resolved from the matrix, or not at all. *)
Lemma get_supported_versions_cask_from_matrix (data : pyval) (versions : list string) :
  get_supported_versions data "cask" = Ret versions ->
  exists k, support_matrix !! k = Some versions.
Proof.
  unfold get_supported_versions. cbn.
  destruct (cask_minimum data) as [x | e | c]; cbn; try discriminate.
  unfold support_matrix_getitem.
  destruct (support_matrix !! (">=" ++ py_str x)) as [vs |] eqn:Hk;
    intros [= <-]. eauto.
Qed.

(** C3. For a response of Formula shape that holds a stable-bottle file
    listing, resolution for kind brew returns the keys of that listing,
    in their order: a version is in the result exactly when it is a key
    of the listing. *)
Theorem get_supported_versions_brew (data : pyval) (files : list (string * pyval)) :
  has_bottle_files data files ->
  get_supported_versions data "brew" = Ret (dict_keys files) /\
  (forall version,
      version ∈ dict_keys files <-> is_Some (dict_get files version)).
Proof.
  intros (d & b & s & -> & Hd & Hb & Hs). split.
  - unfold get_supported_versions. cbn.
    rewrite Hd. cbn. rewrite Hb. cbn. rewrite Hs. reflexivity.
  - intros version. apply dict_keys_get.
Qed.

Lemma get_supported_versions_brew_witness :
  has_bottle_files (bottle_body ["big_sur"; "catalina"])
    [("big_sur", PyDict [("url", PyStr "https://ghcr.io")]);
     ("catalina", PyDict [("url", PyStr "https://ghcr.io")])] /\
  get_supported_versions (bottle_body ["big_sur"; "catalina"]) "brew"
    = Ret ["big_sur"; "catalina"].
Proof.
  assert (H : has_bottle_files (bottle_body ["big_sur"; "catalina"])
                [("big_sur", PyDict [("url", PyStr "https://ghcr.io")]);
                 ("catalina", PyDict [("url", PyStr "https://ghcr.io")])]).
  { unfold has_bottle_files, bottle_body. repeat eexists. }
  split; [exact H |].
  exact (proj1 (get_supported_versions_brew _ _ H)).
Defined.

(** C4. For a response of Cask shape that declares a minimum OS version:
    when the constraint formatted from it is a key of the support matrix,
    resolution returns the value the matrix maps it to; when it is not,
    resolution fails on the missing key and the evaluator records the
    package with status No info. *)
Theorem get_supported_versions_cask (data x : pyval) :
  declares_minimum data x ->
  (forall versions,
      support_matrix !! (">=" ++ py_str x) = Some versions ->
      get_supported_versions data "cask" = Ret versions) /\
  (support_matrix !! (">=" ++ py_str x) = None ->
   get_supported_versions data "cask" = Raise KeyError /\
   (forall w name macos_version tr,
       api w (endpoint "cask" name) = ok data ->
       get_status w [name] "cask" macos_version tr
         = (Ret [mkSupportStatus "Application" name "No info"],
            (tr ++ [EvGet (endpoint "cask" name)])%list)) /\
   (forall w names macos_version tr recs tr' i name,
       names !! i = Some name ->
       api w (endpoint "cask" name) = ok data ->
       get_status w names "cask" macos_version tr = (Ret recs, tr') ->
       recs !! i = Some (mkSupportStatus "Application" name "No info"))).
Proof.
  intros Hdecl.
  pose proof (get_supported_versions_cask_lookup _ _
                (cask_minimum_declared _ _ Hdecl)) as Hres.
  unfold support_matrix_getitem in Hres.
  split; [intros versions Hk; by eapply get_supported_versions_cask_found |].
  intros Hk. rewrite Hk in Hres.
  assert (Hrec : forall w name macos_version,
             api w (endpoint "cask" name) = ok data ->
             status_of_response (api w (endpoint "cask" name)) "cask"
               macos_version "Application" name
               = Ret (mkSupportStatus "Application" name "No info")).
  { intros w name macos_version ->. unfold status_of_response, ok. cbn.
    unfold status_of_content. by rewrite Hres. }
  split; [exact Hres | split].
  - intros w name macos_version tr Hapi. unfold get_status.
    rewrite get_status_loop_step, (Hrec _ _ _ Hapi)
      by (apply sendable_endpoint; by right).
    unfold events_of_response. rewrite Hapi. reflexivity.
  - intros w names macos_version tr recs tr' i name Hi Hapi Hrun.
    apply get_status_loop_returns in Hrun as (recs' & -> & HF).
    destruct (Forall2_lookup_l _ _ _ _ _ HF Hi) as (rec & Hrec' & Heq).
    change (get_type "cask") with "Application" in Heq.
    rewrite (Hrec _ _ _ Hapi) in Heq. by injection Heq as <-.
Qed.

Lemma get_supported_versions_cask_witness :
  declares_minimum (cask_body (PyStr "10.14")) (PyStr "10.14") /\
  get_supported_versions (cask_body (PyStr "10.14")) "cask"
    = Ret ["arm64big_sur"; "big_sur"; "catalina"; "mojave"] /\
  declares_minimum (cask_body (PyStr "10.10")) (PyStr "10.10") /\
  get_supported_versions (cask_body (PyStr "10.10")) "cask" = Raise KeyError.
Proof.
  assert (H : forall x, declares_minimum (cask_body x) x).
  { intros x. unfold declares_minimum, cask_body. repeat eexists. }
  split; [apply H | split; [| split; [apply H |]]].
  - apply (proj1 (get_supported_versions_cask _ _ (H (PyStr "10.14")))).
    vm_compute. reflexivity.
  - apply (proj2 (get_supported_versions_cask _ _ (H (PyStr "10.10")))).
    vm_compute. reflexivity.
Defined.

(** X18. For brew and for cask, when every response with status 200 has
    a JSON body on which resolution returns or fails on a missing key, the
    evaluator returns one record per name, in the order of the names, and
    each record is classified by the four cases of the contract:
    Supported, Unsupported, No info, Unknown. *)
Theorem get_status_classifies (w : world) (names : list string)
    (formula_type macos_version : string) (tr : list event) :
  formula_type = "brew" \/ formula_type = "cask" ->
  (forall name, name ∈ names ->
     covered (api w (endpoint formula_type name)) formula_type) ->
  exists recs,
    get_status w names formula_type macos_version tr
      = (Ret recs,
         (tr ++ flat_map (fun name =>
                  events_of_response (api w (endpoint formula_type name))
                    formula_type name) names)%list) /\
    length recs = length names /\
    map formula_name recs = names /\
    Forall2 (classified w formula_type macos_version) names recs.
Proof.
  intros Hkind Hcov.
  assert (HF : exists recs,
             Forall2 (fun name rec =>
                status_of_response (api w (endpoint formula_type name))
                  formula_type macos_version (get_type formula_type) name
                  = Ret rec) names recs).
  { induction names as [| name names IH]; [exists []; constructor |].
    destruct IH as [recs HF]; [intros n Hn; apply Hcov; by right |].
    destruct (status_of_response_covered _ formula_type macos_version
                (get_type formula_type) name (Hcov name ltac:(by left)))
      as [rec Hrec].
    exists (rec :: recs). by constructor. }
  destruct HF as [recs HF]. exists recs.
  assert (HC : Forall2 (classified w formula_type macos_version) names recs).
  { eapply Forall2_impl; [exact HF |].
    intros name rec. apply status_of_response_classified. }
  split; [| split; [| split]].
  - unfold get_status.
    by rewrite (get_status_loop_total _ _ _ _ _
                  (fun name => sendable_endpoint _ name Hkind) _ [] tr HF).
  - symmetry. eapply Forall2_length, HF.
  - clear HF Hcov. induction HC as [| name rec names recs Hc _ IH]; [done |].
    cbn. f_equal; [apply Hc | exact IH].
  - exact HC.
Qed.

Lemma get_status_classifies_witness :
  exists recs,
    get_status (mkWorld no_files (constant_api (ok (bottle_body ["big_sur"; "catalina"]))))
      ["wget"] "brew" "big_sur" [] 
      = (Ret recs, [EvGet "https://formulae.brew.sh/api/formula/wget.json"]) /\
    length recs = 1%nat /\
    map formula_name recs = ["wget"] /\
    Forall2 (classified
               (mkWorld no_files (constant_api (ok (bottle_body ["big_sur"; "catalina"]))))
               "brew" "big_sur") ["wget"] recs.
Proof.
  apply (get_status_classifies
           (mkWorld no_files (constant_api (ok (bottle_body ["big_sur"; "catalina"]))))
           ["wget"] "brew" "big_sur" [] (or_introl eq_refl)).
  intros name _ _. eexists. split; [reflexivity |].
  left. eexists. vm_compute. reflexivity.
Defined.

(** C1. The contract of the evaluator, one record per name with No info
    when the expected fields are missing, is not met on a body with
    status 200 whose bottle field is null: resolution raises [TypeError],
    which the evaluator does not catch, and no record is returned for the
    name. *)
Lemma get_status_returns_no_record :
  get_status (mkWorld no_files (constant_api (ok (PyDict [("bottle", PyNone)]))))
    ["partial"] "brew" "big_sur" []
    = (Raise TypeError, [EvGet "https://formulae.brew.sh/api/formula/partial.json"]) /\
  ~ (exists recs,
       (get_status (mkWorld no_files (constant_api (ok (PyDict [("bottle", PyNone)]))))
          ["partial"] "brew" "big_sur" []).1 = Ret recs /\
       length recs = 1%nat).
Proof.
  split; [vm_compute; reflexivity |].
  intros (recs & H & _). vm_compute in H. discriminate.
Qed.

(** C5. The evaluator catches [KeyError] alone.  A body with status 200
    whose bottle field is not an object raises [TypeError], a cask body
    whose list under [>=] is empty raises [IndexError]; both leave the
    evaluator, which returns no record and does not query the packages
    that follow. *)
Theorem get_status_aborts_on_unexpected_body :
  get_status
    (mkWorld no_files
       (fun url => if String.eqb url (endpoint "brew" "partial")
                   then ok (PyDict [("bottle", PyNone)])
                   else ok (bottle_body ["big_sur"])))
    ["partial"; "wget"] "brew" "big_sur" []
    = (Raise TypeError, [EvGet "https://formulae.brew.sh/api/formula/partial.json"]) /\
  get_status
    (mkWorld no_files
       (fun url => if String.eqb url (endpoint "cask" "partial")
                   then ok (PyDict [("depends_on",
                          PyDict [("macos", PyDict [(">=", PyList [])])])])
                   else ok (cask_body (PyStr "10.14"))))
    ["partial"; "firefox"] "cask" "big_sur" []
    = (Raise IndexError, [EvGet "https://formulae.brew.sh/api/cask/partial.json"]).
Proof. split; vm_compute; reflexivity. Qed.

(** Any failure of resolution other than a missing key leaves the
    evaluator at the first package that has it. *)
Lemma get_status_propagates (w : world) (name : string) (rest : list string)
    (formula_type macos_version : string) (content : pyval) (e : exn)
    (tr : list event) :
  formula_type = "brew" \/ formula_type = "cask" ->
  api w (endpoint formula_type name) = ok content ->
  get_supported_versions content formula_type = Raise e ->
  e <> KeyError ->
  get_status w (name :: rest) formula_type macos_version tr
    = (Raise e, (tr ++ [EvGet (endpoint formula_type name)])%list).
Proof.
  intros Hkind Hapi Hres He. unfold get_status.
  rewrite get_status_loop_step, Hapi by (by apply sendable_endpoint).
  unfold status_of_response, ok, status_of_content. cbn.
  rewrite Hres. by destruct e.
Qed.

(** C7. The choice [arm64_big_sur] of the command line is in no value
    list of the support matrix, whose lists all hold [arm64big_sur]; so a
    cask whose constraint is found in the matrix is recorded Unsupported
    for the target [arm64_big_sur], and no cask evaluation for that target
    ever records Supported. *)
Theorem arm64_big_sur_never_supported :
  "arm64_big_sur" ∈ macos_versions /\
  (forall k versions,
      support_matrix !! k = Some versions ->
      ("arm64_big_sur" ∉ versions) /\ ("arm64big_sur" ∈ versions)) /\
  (forall data x versions kind name,
      declares_minimum data x ->
      support_matrix !! (">=" ++ py_str x) = Some versions ->
      status_of_content data "cask" "arm64_big_sur" kind name
        = Ret (mkSupportStatus kind name "Unsupported")) /\
  (forall w names tr recs tr',
      get_status w names "cask" "arm64_big_sur" tr = (Ret recs, tr') ->
      forall rec, rec ∈ recs -> status rec <> "Supported").
Proof.
  split; [apply (bool_decide_unpack _); vm_compute; exact I |].
  split; [| split].
  - intros k versions H. split; [by eapply arm64_big_sur_in_no_list |].
    matrix_cases H; apply (bool_decide_unpack _); vm_compute; exact I.
  - intros data x versions kind name Hdecl Hk.
    unfold status_of_content.
    rewrite (get_supported_versions_cask_found _ _ _ Hdecl Hk). cbn.
    unfold contains. rewrite bool_decide_eq_false_2; [done |].
    by eapply arm64_big_sur_in_no_list.
  - intros w names tr recs tr' Hrun rec Hin.
    apply get_status_loop_returns in Hrun as (recs' & -> & HF).
    rewrite app_nil_l in Hin.
    apply list_elem_of_lookup in Hin as [i Hi].
    destruct (Forall2_lookup_r _ _ _ _ _ HF Hi) as (name & _ & Hrec).
    revert Hrec. unfold status_of_response.
    destruct (status_code _ =? 200); [| by intros [= <-]].
    destruct (json _) as [content |]; [| discriminate].
    unfold status_of_content.
    destruct (get_supported_versions content "cask")
      as [versions | e | c] eqn:Hres; cbn.
    + apply get_supported_versions_cask_from_matrix in Hres as [k Hk].
      unfold contains. rewrite bool_decide_eq_false_2; [by intros [= <-] |].
      by eapply arm64_big_sur_in_no_list.
    + destruct e; cbn; try discriminate. by intros [= <-].
    + discriminate.
Qed.

Lemma arm64_big_sur_never_supported_witness :
  status_of_content (cask_body (PyStr "10.14")) "cask" "arm64_big_sur"
    "Application" "firefox"
  = Ret (mkSupportStatus "Application" "firefox" "Unsupported").
Proof.
  apply (proj1 (proj2 (proj2 arm64_big_sur_never_supported))
           (cask_body (PyStr "10.14")) (PyStr "10.14")
           ["arm64big_sur"; "big_sur"; "catalina"; "mojave"]).
  - unfold declares_minimum, cask_body. repeat eexists.
  - vm_compute. reflexivity.
Defined.

(** C8. The records depend on the responses alone: two runs over the same
    names, kind and target, against worlds whose API answers alike for
    those names, return the same outcome, whatever happened before each
    run. *)
Theorem get_status_deterministic (w1 w2 : world) (names : list string)
    (formula_type macos_version : string) (tr1 tr2 : list event) :
  (forall name, name ∈ names ->
     api w1 (endpoint formula_type name) = api w2 (endpoint formula_type name)) ->
  (get_status w1 names formula_type macos_version tr1).1
  = (get_status w2 names formula_type macos_version tr2).1.
Proof.
  unfold get_status. generalize (@nil SupportStatus) as statuses.
  revert tr1 tr2.
  induction names as [| name names IH]; intros tr1 tr2 statuses Hapi.
  - reflexivity.
  - rewrite !get_status_loop_round.
    rewrite <- (Hapi name) by (by left).
    destruct (sendable (endpoint formula_type name)); [| reflexivity].
    destruct (status_of_response _ _ _ _ _); cbn; try reflexivity.
    apply IH. intros n Hn. apply Hapi. by right.
Qed.

Lemma get_status_deterministic_witness :
  (get_status (mkWorld no_files (constant_api not_found))
     ["wget"; "curl"] "brew" "big_sur" []).1
  = (get_status (mkWorld (one_file "Brewfile" "brew") (constant_api not_found))
       ["wget"; "curl"] "brew" "big_sur"
       (get_status (mkWorld no_files (constant_api not_found))
          ["wget"; "curl"] "brew" "big_sur" []).2).1.
Proof.
  apply get_status_deterministic. intros name _. reflexivity.
Defined.

(** C6. The matrix is not monotone: the list of [>=10.11] lacks [sierra],
    which the list of [>=10.12] holds, and this is the only pair of
    constraints, lower before higher, where the lower list misses an
    identifier of the higher.  A cask that declares the minimum 10.11 is
    therefore recorded Unsupported for the target [sierra]. *)
Theorem support_matrix_lacks_sierra :
  support_matrix !! ">=10.12"
    = Some ["arm64big_sur"; "big_sur"; "catalina"; "mojave"; "high_sierra"; "sierra"] /\
  support_matrix !! ">=10.11"
    = Some ["arm64big_sur"; "big_sur"; "catalina"; "mojave"; "high_sierra"; "el_capitan"] /\
  filter (fun p => negb (monotone_at p)) (ordered_pairs constraints_ascending)
    = [(">=10.11", ">=10.12")] /\
  get_status (mkWorld no_files (constant_api (ok (cask_body (PyStr "10.11")))))
    ["firefox"] "cask" "sierra" []
    = (Ret [mkSupportStatus "Application" "firefox" "Unsupported"],
       [EvGet "https://formulae.brew.sh/api/cask/firefox.json"]).
Proof. repeat split; vm_compute; reflexivity. Qed.

(** ** The manifest reader *)

Lemma re_search_cons (c : ascii) (s : string) :
  re_search (String c s) =
    match re_match (String c s) with
    | Some m => Some m
    | None => re_search s
    end.
Proof. reflexivity. Qed.

Lemma re_match_not_quote (c : ascii) (s : string) :
  c <> quote -> re_match (String c s) = None.
Proof.
  intros Hc. destruct s as [| c' s]; [reflexivity |]. cbn.
  by destruct (Ascii.eqb_spec c quote).
Qed.

Lemma cut_at_quote_cons (c : ascii) (s : string) :
  c <> quote ->
  cut_at_quote (String c s)
  = (fun p : string * string => (String c p.1, p.2)) <$> cut_at_quote s.
Proof. intros Hc. cbn. by destruct (Ascii.eqb_spec c quote). Qed.

Lemma remove_quotes_cut (s a b : string) :
  cut_at_quote s = Some (a, b) -> remove_quotes a = a.
Proof.
  revert a b. induction s as [| c s IH]; intros a b; [discriminate |].
  cbn. destruct (Ascii.eqb_spec c quote) as [-> | Hc].
  - by intros [= <- <-].
  - destruct (cut_at_quote s) as [[a' b'] |]; [| discriminate].
    intros [= <- <-]. cbn. destruct (Ascii.eqb_spec c quote); [done |].
    f_equal. by eapply IH.
Qed.

Lemma remove_quotes_closing (s : string) :
  remove_quotes (s ++ String quote EmptyString) = remove_quotes s.
Proof.
  induction s as [| c s IH]; [reflexivity |].
  change (String c s ++ String quote EmptyString)
    with (String c (s ++ String quote EmptyString)).
  cbn. destruct (Ascii.eqb c quote); [exact IH | by f_equal].
Qed.

(** Without a quote there is nothing to close and nothing to find. *)
Lemma lazy_close_none (s : string) :
  cut_at_quote s = None -> lazy_close s = None.
Proof.
  induction s as [| c s IH]; [reflexivity |].
  cbn. destruct (Ascii.eqb c quote); [discriminate |].
  destruct (Ascii.eqb c newline); [reflexivity |].
  destruct (cut_at_quote s); [discriminate |]. intros _. by rewrite IH.
Qed.

Lemma re_search_none (s : string) :
  cut_at_quote s = None -> re_search s = None.
Proof.
  induction s as [| c s IH]; [reflexivity |].
  intros H. rewrite re_search_cons.
  assert (Hc : c <> quote).
  { intros ->. discriminate. }
  rewrite re_match_not_quote by exact Hc.
  apply IH. rewrite cut_at_quote_cons in H by exact Hc.
  by destruct (cut_at_quote s).
Qed.

Lemma re_search_one_quote (s : string) :
  cut_at_quote s = None -> re_search (String quote s) = None.
Proof.
  intros H. rewrite re_search_cons.
  replace (re_match (String quote s)) with (@None string).
  - by apply re_search_none.
  - destruct s as [| c s]; [reflexivity |]. cbn.
    destruct (Ascii.eqb c newline); [reflexivity |]. cbn.
    revert H. cbn. destruct (Ascii.eqb c quote); [discriminate |].
    intros H. rewrite lazy_close_none; [reflexivity |].
    by destruct (cut_at_quote s).
Qed.

(** On a line, the lazy group ends at the next quote. *)
Lemma lazy_close_cut (s : string) :
  newline_last s = true -> lazy_close s = fst <$> cut_at_quote s.
Proof.
  induction s as [| c s IH]; [reflexivity |].
  cbn. destruct (Ascii.eqb_spec c quote) as [-> | Hq]; [reflexivity |].
  destruct (Ascii.eqb_spec c newline) as [-> | Hn].
  - intros Hs. apply String.eqb_eq in Hs as ->. reflexivity.
  - intros Hs. rewrite (IH Hs). by destruct (cut_at_quote s) as [[a b] |].
Qed.

Lemma newline_last_tail (c : ascii) (s : string) :
  newline_last (String c s) = true -> newline_last s = true.
Proof.
  cbn. destruct (Ascii.eqb c newline); [| done].
  intros H. by apply String.eqb_eq in H as ->.
Qed.

(** What [re.search] finds on a line, quotes removed, is the token with a
    content. *)
Lemma re_search_token (line : string) :
  newline_last line = true ->
  remove_quotes <$> re_search line = nonempty_quoted_token line.
Proof.
  induction line as [| a s IH]; [reflexivity |].
  intros Hline. pose proof (newline_last_tail _ _ Hline) as Hs.
  rewrite re_search_cons.
  destruct (Ascii.eqb_spec a quote) as [-> | Ha].
  - (* the line opens a token here *)
    unfold nonempty_quoted_token.
    change (cut_at_quote (String quote s)) with (Some (EmptyString, s)).
    destruct s as [| c s']; [reflexivity |].
    destruct (Ascii.eqb_spec c newline) as [-> | Hn].
    + apply String.eqb_eq in Hline as ->. reflexivity.
    + pose proof (newline_last_tail _ _ Hs) as Hs'.
      assert (Hm : re_match (String quote (String c s'))
                   = (fun g => String quote (String c (g ++ String quote EmptyString)))
                       <$> (fst <$> cut_at_quote s')).
      { cbn. destruct (Ascii.eqb_spec c newline); [done |]. cbn.
        by rewrite (lazy_close_cut _ Hs'). }
      rewrite Hm. clear Hm.
      destruct (Ascii.eqb_spec c quote) as [-> | Hq].
      * (* the first two quotes are adjacent *)
        change (cut_at_quote (String quote s')) with (Some (EmptyString, s')).
        cbv beta iota.
        destruct (cut_at_quote s') as [[t r] |] eqn:Hcut.
        -- cbn. rewrite remove_quotes_closing. f_equal.
           by eapply remove_quotes_cut.
        -- by rewrite (re_search_one_quote _ Hcut).
      * rewrite (cut_at_quote_cons _ _ Hq).
        destruct (cut_at_quote s') as [[t r] |] eqn:Hcut.
        -- cbn. destruct (Ascii.eqb_spec c quote); [done |].
           rewrite remove_quotes_closing. do 2 f_equal.
           by eapply remove_quotes_cut.
        -- rewrite (re_search_none (String c s')); [reflexivity |].
           by rewrite (cut_at_quote_cons _ _ Hq), Hcut.
  - rewrite (re_match_not_quote _ _ Ha), (IH Hs).
    unfold nonempty_quoted_token. rewrite (cut_at_quote_cons _ _ Ha).
    by destruct (cut_at_quote s) as [[x y] |].
Qed.

(** The token with a content is the first quoted token whenever that one
    has a content, and there is none when the line has no quoted token. *)
Lemma nonempty_quoted_token_first (line : string) :
  (first_quoted_token line = None -> nonempty_quoted_token line = None) /\
  (forall content,
      first_quoted_token line = Some content -> content <> EmptyString ->
      nonempty_quoted_token line = Some content).
Proof.
  unfold first_quoted_token, nonempty_quoted_token.
  destruct (cut_at_quote line) as [[before rest] |]; [| done].
  destruct (cut_at_quote rest) as [[content rest'] |]; cbn; [| done].
  split; [discriminate |].
  intros ? [= <-] Hne. by destruct content.
Qed.

(** *** Lines of a text *)

Lemma no_newline_snoc (cur : string) (c : ascii) :
  no_newline cur = true -> c <> newline ->
  no_newline (cur ++ String c EmptyString) = true.
Proof.
  intros Hcur Hc. induction cur as [| a cur IH].
  - change (no_newline (String c EmptyString) = true).
    cbn. by destruct (Ascii.eqb_spec c newline).
  - change (String a cur ++ String c EmptyString)
      with (String a (cur ++ String c EmptyString)).
    cbn in *. apply andb_true_iff in Hcur as [-> Hcur]. cbn. by apply IH.
Qed.

Lemma newline_last_snoc (cur : string) :
  no_newline cur = true ->
  newline_last (cur ++ String newline EmptyString) = true.
Proof.
  induction cur as [| a cur IH]; [reflexivity |].
  change (String a cur ++ String newline EmptyString)
    with (String a (cur ++ String newline EmptyString)).
  cbn. intros [Ha Hcur]%andb_true_iff.
  apply negb_true_iff in Ha. rewrite Ha. by apply IH.
Qed.

Lemma no_newline_newline_last (cur : string) :
  no_newline cur = true -> newline_last cur = true.
Proof.
  induction cur as [| a cur IH]; [reflexivity |].
  cbn. intros [Ha Hcur]%andb_true_iff.
  apply negb_true_iff in Ha. rewrite Ha. by apply IH.
Qed.

Lemma readlines_from_newline_last (text : string) :
  forall cur,
    no_newline cur = true ->
    Forall (fun line => newline_last line = true) (readlines_from cur text).
Proof.
  induction text as [| c text IH]; intros cur Hcur; cbn.
  - destruct (String.eqb cur ""); constructor;
      [by apply no_newline_newline_last | constructor].
  - destruct (Ascii.eqb_spec c newline) as [-> | Hc].
    + constructor; [by apply newline_last_snoc | by apply IH].
    + by apply IH, no_newline_snoc.
Qed.

(** Every line [readlines] yields has its newline, if any, at the end. *)
Lemma readlines_newline_last (text : string) :
  Forall (fun line => newline_last line = true) (readlines text).
Proof. by apply readlines_from_newline_last. Qed.

(** *** The loop over the lines *)

Lemma formulae_of_lines_declared (formula_type : string) (lines : list string) :
  forall formulae,
    formulae_of_lines formula_type lines formulae
    = (formulae ++
       declared_names (fun line => remove_quotes <$> re_search line)
         formula_type lines)%list.
Proof.
  induction lines as [| line lines IH]; intros formulae; cbn.
  - by rewrite app_nil_r.
  - rewrite IH. destruct (String.prefix formula_type line); [| done].
    destruct (re_search line) as [m |]; cbn; [| done].
    by rewrite <- app_assoc.
Qed.

Lemma declared_names_ext (token1 token2 : string -> option string)
    (keyword : string) (lines : list string) :
  Forall (fun line => token1 line = token2 line) lines ->
  declared_names token1 keyword lines = declared_names token2 keyword lines.
Proof.
  unfold declared_names.
  induction 1 as [| line lines Hline _ IH]; [reflexivity |].
  cbn [flat_map]. by rewrite Hline, IH.
Qed.

(** C2, as amended.  For a manifest that exists and a supported kind, the
    reader returns, in the order of the lines, one name for each line that
    starts with the keyword of the kind and has a quoted token with a
    content: the text between the first two double quotes of the line
    when that text is not empty, the text between the second quote and
    the third when the first two quotes are adjacent.  A line without
    such a token contributes nothing; in particular a line with no
    double-quoted token contributes nothing, and a line whose first
    double-quoted token has a content contributes that content. *)
Theorem get_formulae_declared_names (w : world) (brewfile formula_type text : string)
    (tr : list event) :
  formula_type = "brew" \/ formula_type = "cask" ->
  fs w brewfile = Some text ->
  get_formulae w brewfile formula_type tr
    = (Ret (declared_names nonempty_quoted_token formula_type (readlines text)),
       (tr ++ [EvOpen brewfile])%list) /\
  (forall line,
      first_quoted_token line = None -> nonempty_quoted_token line = None) /\
  (forall line content,
      first_quoted_token line = Some content -> content <> EmptyString ->
      nonempty_quoted_token line = Some content).
Proof.
  intros Hkind Hfile. split; [| split].
  - unfold get_formulae. rewrite metadata_lookup.
    replace (if String.eqb formula_type "brew"
             then Some "https://formulae.brew.sh/api/formula"
             else if String.eqb formula_type "cask"
                  then Some "https://formulae.brew.sh/api/cask" else None)
      with (Some (default "" (metadata !! formula_type)))
      by (by destruct Hkind as [-> | ->]).
    unfold mbind, IO_bind, Eff.bind, Eff.open_read. rewrite Hfile.
    unfold mret, IO_ret, Eff.ret. do 2 f_equal.
    rewrite formulae_of_lines_declared. cbn [app].
    apply declared_names_ext.
    eapply Forall_impl; [apply readlines_newline_last |].
    intros line. apply re_search_token.
  - intros line. apply nonempty_quoted_token_first.
  - intros line. apply nonempty_quoted_token_first.
Qed.

Lemma get_formulae_declared_names_witness :
  get_formulae
    (mkWorld (one_file "Brewfile" (brew_line (q ++ "wget" ++ q))) (constant_api not_found))
    "Brewfile" "brew" []
  = (Ret ["wget"], [EvOpen "Brewfile"]).
Proof.
  apply (proj1 (get_formulae_declared_names
                  (mkWorld (one_file "Brewfile" (brew_line (q ++ "wget" ++ q)))
                     (constant_api not_found))
                  "Brewfile" "brew" (brew_line (q ++ "wget" ++ q)) []
                  (or_introl eq_refl) eq_refl)).
Defined.

(** C2, as stated, fails on a line whose first double-quoted token is
    empty: the content of that token is the empty text, the content of the
    token after it is [x], and the reader returns the blank between the
    two tokens, which is the content of no token of the line. *)
Lemma get_formulae_empty_first_token :
  get_formulae
    (mkWorld (one_file "Brewfile" empty_token_line) (constant_api not_found))
    "Brewfile" "brew" []
    = (Ret [" "], [EvOpen "Brewfile"]) /\
  readlines empty_token_line = [empty_token_line] /\
  String.prefix "brew" empty_token_line = true /\
  first_quoted_token empty_token_line = Some EmptyString /\
  quoted_tokens empty_token_line = [EmptyString; "x"] /\
  declared_names first_quoted_token "brew" (readlines empty_token_line)
    = [EmptyString] /\
  (get_formulae
     (mkWorld (one_file "Brewfile" empty_token_line) (constant_api not_found))
     "Brewfile" "brew" []).1
    <> Ret (declared_names first_quoted_token "brew" (readlines empty_token_line)).
Proof. repeat split; try (vm_compute; reflexivity). vm_compute. discriminate. Qed.

(** C9. For a kind that is neither brew nor cask the reader logs the error
    and leaves with code 1; the manifest has not been opened and no
    request has been sent.  For brew and for cask the reader never leaves
    through [sys.exit]. *)
Theorem get_formulae_unsupported_kind (w : world) (brewfile formula_type : string)
    (tr : list event) :
  (formula_type <> "brew" -> formula_type <> "cask" ->
   get_formulae w brewfile formula_type tr
     = (SysExit 1,
        (tr ++ [EvLog "ERROR"
                  ("Unsupported formula type: " ++ formula_type ++ ". Exiting...")])%list)
   /\
   exists added,
     (get_formulae w brewfile formula_type tr).2 = (tr ++ added)%list /\
     filter (fun e => is_io e = true) added = []) /\
  (formula_type = "brew" \/ formula_type = "cask" ->
   forall code, (get_formulae w brewfile formula_type tr).1 <> SysExit code).
Proof.
  unfold get_formulae. rewrite metadata_lookup. split.
  - intros Hb Hc.
    destruct (String.eqb_spec formula_type "brew"); [done |].
    destruct (String.eqb_spec formula_type "cask"); [done |].
    split; [reflexivity |]. eexists. split; [reflexivity |]. reflexivity.
  - intros [-> | ->] code; cbn;
      unfold mbind, IO_bind, Eff.bind, Eff.open_read;
      destruct (fs w brewfile); cbn; discriminate.
Qed.

Lemma get_formulae_unsupported_kind_witness :
  get_formulae (mkWorld no_files (constant_api not_found)) "Brewfile" "tap" []
    = (SysExit 1, [EvLog "ERROR" "Unsupported formula type: tap. Exiting..."]) /\
  (get_formulae (mkWorld no_files (constant_api not_found)) "Brewfile" "cask" []).1
    = Raise FileNotFoundError.
Proof.
  split.
  - apply (proj1 (proj1 (get_formulae_unsupported_kind
                    (mkWorld no_files (constant_api not_found)) "Brewfile" "tap" [])
                    ltac:(discriminate) ltac:(discriminate))).
  - reflexivity.
Defined.

(** C10. The keyword test is a test of a prefix of the line: the line
    [cask_args appdir: ...], whose first word extends the keyword [cask],
    is read with kind cask and its first quoted token is returned as a
    package name. *)
Theorem get_formulae_prefix_not_word :
  exists line token,
    String.prefix "cask_args " line = true /\
    String.prefix "cask " line = false /\
    first_quoted_token line = Some token /\
    get_formulae (mkWorld (one_file "Brewfile" line) (constant_api not_found))
      "Brewfile" "cask" []
      = (Ret [token], [EvOpen "Brewfile"]).
Proof.
  exists cask_args_line, "/Applications".
  repeat split; vm_compute; reflexivity.
Qed.

(** ** The scenarios of the specification *)

(** A manifest with [brew wget]; the API lists bottle files for [big_sur]
    and [catalina]; the target is [big_sur]. *)
Example scenario_bottle_supported :
  cli (mkWorld (one_file "Brewfile" (brew_line (q ++ "wget" ++ q)))
         (constant_api (ok (bottle_body ["big_sur"; "catalina"]))))
    (mkArguments "Brewfile" "big_sur" false false) []
  = (Ret tt,
     [EvLog "INFO" "Brewfile exists!";
      EvLog "INFO" "Using Brewfile: Brewfile";
      EvLog "INFO" "Checking compatibility for big_sur";
      EvLog "INFO" "Getting details from Homebrew API for formulae, hold on...";
      EvOpen "Brewfile"; EvOpen "Brewfile";
      EvGet "https://formulae.brew.sh/api/formula/wget.json";
      EvPrint [mkSupportStatus "Bottle" "wget" "Supported"]]).
Proof. vm_compute. reflexivity. Qed.

(** A cask that declares the minimum 10.14, checked for [sierra]. *)
Example scenario_cask_unsupported :
  get_status (mkWorld no_files (constant_api (ok (cask_body (PyStr "10.14")))))
    ["firefox"] "cask" "sierra" []
  = (Ret [mkSupportStatus "Application" "firefox" "Unsupported"],
     [EvGet "https://formulae.brew.sh/api/cask/firefox.json"]).
Proof. vm_compute. reflexivity. Qed.

(** A formula the API does not know. *)
Example scenario_not_found :
  get_status (mkWorld no_files (constant_api not_found))
    ["doesnotexist"] "brew" "big_sur" []
  = (Ret [mkSupportStatus "Bottle" "doesnotexist" "Unknown"],
     [EvGet "https://formulae.brew.sh/api/formula/doesnotexist.json";
      EvLog "WARNING" "Unknown formula: doesnotexist"]).
Proof. vm_compute. reflexivity. Qed.

(** A body with status 200 that lacks the bottle field. *)
Example scenario_no_bottle_field :
  get_status (mkWorld no_files (constant_api (ok (PyDict [("name", PyStr "partial")]))))
    ["partial"] "brew" "big_sur" []
  = (Ret [mkSupportStatus "Bottle" "partial" "No info"],
     [EvGet "https://formulae.brew.sh/api/formula/partial.json"]).
Proof. vm_compute. reflexivity. Qed.

(** A missing manifest ends the program before any request. *)
Example scenario_missing_manifest :
  cli (mkWorld no_files (constant_api not_found))
    (mkArguments "Brewfile" "big_sur" false false) []
  = (SysExit 1, [EvLog "ERROR" "Brewfile does not exist: Brewfile. Exiting"]).
Proof. vm_compute. reflexivity. Qed.

(** The pattern on lines with adjacent quotes, and on a text with a
    newline inside a quoted part. *)
Example re_search_adjacent_quotes :
  remove_quotes <$> re_search (brew_line (q ++ q ++ "wget" ++ q)) = Some "wget" /\
  remove_quotes <$> re_search (brew_line (q ++ q ++ q)) = Some EmptyString /\
  remove_quotes <$> re_search (brew_line (q ++ q)) = None /\
  remove_quotes <$> re_search
    ("brew " ++ q ++ "a" ++ String newline ("b" ++ q ++ " " ++ q ++ "c" ++ q))
    = Some " ".
Proof. repeat split; vm_compute; reflexivity. Qed.

Example readlines_keeps_newlines :
  readlines ("a" ++ String newline ("b" ++ String newline (String newline "c")))
  = ["a" ++ String newline EmptyString; "b" ++ String newline EmptyString;
     String newline EmptyString; "c"].
Proof. vm_compute. reflexivity. Qed.

Example py_str_of_values :
  map py_str
    [PyFloat "10.15"; PyBool true; PyNone; PyInt 11;
     PyList [PyStr "a'b"; PyInt (-12); PyDict [("k", PyNone)]]]
  = ["10.15"; "True"; "None"; "11";
     "[" ++ q ++ "a'b" ++ q ++ ", -12, {'k': None}]"].
Proof. vm_compute. reflexivity. Qed.

(** * Further properties of the code *)

(** ** The version resolver, by outcome *)

Lemma getitem_ret (v : pyval) (k : string) (x : pyval) :
  getitem v k = Ret x <-> exists d, v = PyDict d /\ dict_get d k = Some x.
Proof.
  split.
  - destruct v as [| | | | | | d]; try discriminate. cbn.
    destruct (dict_get d k) as [y |] eqn:Hk; [| discriminate].
    intros [= <-]. eauto.
  - intros (d & -> & Hk). cbn. by rewrite Hk.
Qed.

Lemma getitem_key_error (v : pyval) (k : string) :
  getitem v k = Raise KeyError <-> exists d, v = PyDict d /\ dict_get d k = None.
Proof.
  split.
  - destruct v as [| | | | | | d]; try discriminate. cbn.
    destruct (dict_get d k) eqn:Hk; [discriminate |]. eauto.
  - intros (d & -> & Hk). cbn. by rewrite Hk.
Qed.

Lemma getitem_no_exit (v : pyval) (k : string) (c : Z) :
  getitem v k <> SysExit c.
Proof. destruct v as [| | | | | | d]; try done. cbn. by destruct (dict_get d k). Qed.

Lemma keys_ret (v : pyval) (versions : list string) :
  keys v = Ret versions <-> exists d, v = PyDict d /\ versions = dict_keys d.
Proof.
  split.
  - destruct v; try discriminate. intros [= <-]. eauto.
  - by intros (d & -> & ->).
Qed.

(** What resolution does for brew, as a chain of three subscripts and
    [keys]. *)
Lemma get_supported_versions_brew_chain (data : pyval) :
  get_supported_versions data "brew" =
    (b ← getitem data "bottle"; s ← getitem b "stable";
     f ← getitem s "files"; keys f).
Proof.
  unfold get_supported_versions. cbn.
  destruct (getitem data "bottle") as [b | |]; cbn; try done.
  destruct (getitem b "stable") as [s | |]; cbn; try done.
  destruct (getitem s "files") as [f | |]; cbn; try done.
  by destruct (keys f).
Qed.

(** X1. Resolution for brew returns only for a body of bottle shape, and
    what it returns is then the list of the keys of the file listing. *)
Theorem get_supported_versions_brew_returns (data : pyval) (versions : list string) :
  get_supported_versions data "brew" = Ret versions <->
  exists files, has_bottle_files data files /\ versions = dict_keys files.
Proof.
  rewrite get_supported_versions_brew_chain. unfold has_bottle_files. split.
  - destruct (getitem data "bottle") as [b | |] eqn:Hb; try discriminate.
    cbn. destruct (getitem b "stable") as [s | |] eqn:Hs; try discriminate.
    cbn. destruct (getitem s "files") as [f | |] eqn:Hf; try discriminate.
    cbn. intros Hk.
    apply getitem_ret in Hb as (d & -> & Hb).
    apply getitem_ret in Hs as (b' & -> & Hs).
    apply getitem_ret in Hf as (s' & -> & Hf).
    apply keys_ret in Hk as (files & -> & ->).
    exists files. split; [| done]. by exists d, b', s'.
  - intros (files & (d & b & s & -> & Hd & Hb & Hs) & ->).
    cbn. rewrite Hd. cbn. rewrite Hb. cbn. by rewrite Hs.
Qed.

(** X2. Resolution for brew fails on a missing key, the failure the
    evaluator turns into No info, exactly when the body is an object
    without [bottle], or its bottle an object without [stable], or the
    stable bottle an object without [files]. *)
Theorem get_supported_versions_brew_key_error (data : pyval) :
  get_supported_versions data "brew" = Raise KeyError <->
  exists d,
    data = PyDict d /\
    (dict_get d "bottle" = None \/
     exists b,
       dict_get d "bottle" = Some (PyDict b) /\
       (dict_get b "stable" = None \/
        exists s,
          dict_get b "stable" = Some (PyDict s) /\
          dict_get s "files" = None)).
Proof.
  rewrite get_supported_versions_brew_chain. split.
  - destruct (getitem data "bottle") as [b | e |] eqn:Hb; cbn.
    + apply getitem_ret in Hb as (d & -> & Hb).
      destruct (getitem b "stable") as [s | e |] eqn:Hs; cbn.
      * apply getitem_ret in Hs as (b' & -> & Hs).
        destruct (getitem s "files") as [f | e |] eqn:Hf; cbn.
        -- destruct f; discriminate.
        -- intros [= ->]. apply getitem_key_error in Hf as (s' & -> & Hf).
           exists d. split; [done |]. right. exists b'. split; [done |].
           right. by exists s'.
        -- discriminate.
      * intros [= ->]. apply getitem_key_error in Hs as (b' & -> & Hs).
        exists d. split; [done |]. right. exists b'. by split; [| left].
      * discriminate.
    + intros [= ->]. apply getitem_key_error in Hb as (d & -> & Hb).
      exists d. by split; [| left].
    + discriminate.
  - intros (d & -> & [Hd | (b & Hd & [Hb | (s & Hb & Hs)])]); cbn; rewrite Hd; cbn;
      [done | by rewrite Hb | rewrite Hb; cbn; by rewrite Hs].
Qed.

Lemma get_supported_versions_brew_key_error_witness :
  get_supported_versions (PyDict [("bottle", PyDict [])]) "brew" = Raise KeyError.
Proof.
  apply (proj2 (get_supported_versions_brew_key_error (PyDict [("bottle", PyDict [])]))).
  exists [("bottle", PyDict [])]. split; [reflexivity |].
  right. exists []. split; [reflexivity |]. left. reflexivity.
Defined.

Lemma get_supported_versions_cask_chain (data : pyval) :
  get_supported_versions data "cask" =
    (d ← getitem data "depends_on"; m ← getitem d "macos";
     ge ← getitem m ">="; x ← getitem0 ge;
     support_matrix_getitem (">=" ++ py_str x)).
Proof.
  unfold get_supported_versions, cask_minimum. cbn.
  destruct (getitem data "depends_on") as [d | |]; cbn; try done.
  destruct (getitem d "macos") as [m | |]; cbn; try done.
  destruct (getitem m ">=") as [ge | |]; cbn; try done.
Qed.

Lemma getitem0_key_error (v : pyval) :
  getitem0 v = Raise KeyError <-> exists d, v = PyDict d.
Proof.
  split; [| by intros [d ->]].
  destruct v as [| | | | s | l | d]; try discriminate; eauto.
  - by destruct s.
  - by destruct l.
Qed.

Lemma support_matrix_getitem_key_error (k : string) :
  support_matrix_getitem k = Raise KeyError <-> support_matrix !! k = None.
Proof.
  unfold support_matrix_getitem. by destruct (support_matrix !! k).
Qed.

(** X3. Resolution for cask fails on a missing key exactly when the body
    is an object and [depends_on], [macos] or [>=] is missing from the
    object before it, or the value under [>=] is itself an object, or its
    first entry formats to a constraint that is no key of the support
    matrix. *)
Theorem get_supported_versions_cask_key_error (data : pyval) :
  get_supported_versions data "cask" = Raise KeyError <->
  exists d,
    data = PyDict d /\
    (dict_get d "depends_on" = None \/
     exists dep,
       dict_get d "depends_on" = Some (PyDict dep) /\
       (dict_get dep "macos" = None \/
        exists mac,
          dict_get dep "macos" = Some (PyDict mac) /\
          (dict_get mac ">=" = None \/
           exists ge,
             dict_get mac ">=" = Some ge /\
             ((exists entries, ge = PyDict entries) \/
              exists x,
                getitem0 ge = Ret x /\
                support_matrix !! (">=" ++ py_str x) = None)))).
Proof.
  rewrite get_supported_versions_cask_chain. split.
  - destruct (getitem data "depends_on") as [dep | e |] eqn:Hd; cbn.
    + apply getitem_ret in Hd as (d & -> & Hd).
      destruct (getitem dep "macos") as [mac | e |] eqn:Hdep; cbn.
      * apply getitem_ret in Hdep as (dep' & -> & Hdep).
        destruct (getitem mac ">=") as [ge | e |] eqn:Hmac; cbn.
        -- apply getitem_ret in Hmac as (mac' & -> & Hmac).
           intros H. exists d. split; [done |]. right.
           exists dep'. split; [done |]. right.
           exists mac'. split; [done |]. right.
           exists ge. split; [done |].
           destruct (getitem0 ge) as [x | e |] eqn:Hge; cbn in H.
           ++ right. exists x. split; [done |].
              by apply support_matrix_getitem_key_error.
           ++ injection H as ->. left. by apply getitem0_key_error.
           ++ discriminate.
        -- intros [= ->]. apply getitem_key_error in Hmac as (mac' & -> & Hmac).
           exists d. split; [done |]. right. exists dep'. split; [done |].
           right. exists mac'. by split; [| left].
        -- discriminate.
      * intros [= ->]. apply getitem_key_error in Hdep as (dep' & -> & Hdep).
        exists d. split; [done |]. right. exists dep'. by split; [| left].
      * discriminate.
    + intros [= ->]. apply getitem_key_error in Hd as (d & -> & Hd).
      exists d. by split; [| left].
    + discriminate.
  - intros (d & -> & [Hd | (dep & Hd & [Hdep | (mac & Hdep & [Hmac | Hge])])]);
      cbn; rewrite Hd; cbn; [done | by rewrite Hdep | |];
      rewrite Hdep; cbn; [by rewrite Hmac |].
    destruct Hge as (ge & Hmac & [[entries ->] | (x & Hx & Hk)]);
      rewrite Hmac; cbn; [done |].
    rewrite Hx. cbn. by apply support_matrix_getitem_key_error.
Qed.

Lemma get_supported_versions_cask_key_error_witness :
  get_supported_versions
    (PyDict [("depends_on", PyDict [("macos", PyDict [("==", PyList [PyStr "10.12"])])])])
    "cask" = Raise KeyError.
Proof.
  apply (proj2 (get_supported_versions_cask_key_error _)).
  eexists. split; [reflexivity |].
  right. eexists. split; [reflexivity |].
  right. eexists. split; [reflexivity |]. left. reflexivity.
Defined.

Lemma support_matrix_short_key (c : ascii) :
  support_matrix !! (">=" ++ String c EmptyString) = None.
Proof.
  destruct (support_matrix !! (">=" ++ String c EmptyString))
    as [versions |] eqn:H; [| reflexivity].
  apply support_matrix_cases in H.
  change (">=" ++ String c EmptyString)
    with (String ">"%char (String "="%char (String c EmptyString))) in H.
  repeat (apply elem_of_cons in H; destruct H as [H | H]); try discriminate.
  by apply elem_of_nil in H.
Qed.

(** X4. A cask body that gives the constraint under [>=] as a bare text
    instead of a list is never resolved: the subscript [0] takes the first
    character of the text, which formats to no key of the matrix, so the
    package is recorded No info; an empty text raises [IndexError]. *)
Theorem get_supported_versions_cask_bare_text (data : pyval)
    (d dep mac : list (string * pyval)) (text : string) :
  data = PyDict d ->
  dict_get d "depends_on" = Some (PyDict dep) ->
  dict_get dep "macos" = Some (PyDict mac) ->
  dict_get mac ">=" = Some (PyStr text) ->
  get_supported_versions data "cask"
    = Raise (if String.eqb text EmptyString then IndexError else KeyError).
Proof.
  intros -> Hd Hdep Hmac. rewrite get_supported_versions_cask_chain.
  cbn. rewrite Hd. cbn. rewrite Hdep. cbn. rewrite Hmac. cbn.
  destruct text as [| c text]; [reflexivity |]. cbn.
  unfold support_matrix_getitem. by rewrite support_matrix_short_key.
Qed.

Lemma get_supported_versions_cask_bare_text_witness :
  get_supported_versions
    (PyDict [("depends_on", PyDict [("macos", PyDict [(">=", PyStr "10.15")])])])
    "cask" = Raise KeyError.
Proof.
  apply (get_supported_versions_cask_bare_text _
           [("depends_on", PyDict [("macos", PyDict [(">=", PyStr "10.15")])])]
           [("macos", PyDict [(">=", PyStr "10.15")])]
           [(">=", PyStr "10.15")] "10.15"); reflexivity.
Defined.

(** ** The evaluator, run by run *)

Lemma bind_no_exit {A B : Type} (m : outcome A) (k : A -> outcome B) :
  (forall c, m <> SysExit c) -> (forall a c, k a <> SysExit c) ->
  forall c, m ≫= k <> SysExit c.
Proof.
  intros Hm Hk c. destruct m as [a | e | c']; cbn; [apply Hk | done |].
  by destruct (Hm c').
Qed.

Lemma get_supported_versions_no_exit (data : pyval) (formula_type : string) (c : Z) :
  get_supported_versions data formula_type <> SysExit c.
Proof.
  revert c. unfold get_supported_versions, cask_minimum.
  apply bind_no_exit.
  - destruct (String.eqb formula_type "brew"); [| done].
    repeat (apply bind_no_exit; [intros; apply getitem_no_exit | intros ?]).
    intros c. by destruct a1.
  - intros versions. destruct (String.eqb formula_type "cask"); [| done].
    apply bind_no_exit.
    + repeat (apply bind_no_exit; [intros; apply getitem_no_exit | intros ?]).
      intros c. destruct a1 as [| | | | s | l |]; try done; [by destruct s | by destruct l].
    + intros x c. unfold support_matrix_getitem. by destruct (support_matrix !! _).
Qed.

Lemma status_of_response_no_exit (r : response)
    (formula_type macos_version kind name : string) (c : Z) :
  status_of_response r formula_type macos_version kind name <> SysExit c.
Proof.
  unfold status_of_response, status_of_content.
  destruct (status_code r =? 200); [| done].
  destruct (json r) as [content |]; [| done].
  destruct (get_supported_versions content formula_type) as [vs | e | c'] eqn:H; cbn.
  - by destruct (contains vs macos_version).
  - by destruct e.
  - by apply get_supported_versions_no_exit in H.
Qed.

Lemma status_of_response_ret (r : response)
    (formula_type macos_version k name : string) (rec : SupportStatus) :
  status_of_response r formula_type macos_version k name = Ret rec ->
  formula_name rec = name /\ kind rec = k /\
  status rec ∈ status_values /\
  (status rec = "Unknown" <-> status_code r <> 200).
Proof.
  unfold status_of_response, status_of_content, status_values.
  destruct (Z.eqb_spec (status_code r) 200) as [H200 | H200].
  - destruct (json r) as [content |]; [| discriminate].
    destruct (get_supported_versions content formula_type) as [vs | e | c]; cbn.
    + destruct (contains vs macos_version); intros [= <-]; cbn;
        repeat split; try done; set_solver.
    + destruct e; try discriminate. intros [= <-]; cbn.
      repeat split; try done; set_solver.
    + discriminate.
  - intros [= <-]; cbn. repeat split; try done; set_solver.
Qed.

Lemma requests_of_response (r : response) (formula_type name : string) :
  requests (events_of_response r formula_type name) = [endpoint formula_type name] /\
  Forall (fun e => evaluator_event e = true) (events_of_response r formula_type name).
Proof.
  unfold events_of_response. destruct (status_code r =? 200); cbn.
  - split; [done | by repeat constructor].
  - split; [done | by repeat constructor].
Qed.

Lemma get_status_loop_trace (w : world) (formula_type macos_version k : string)
    (names : list string) :
  forall acc tr,
  exists added : list event,
    (get_status_loop w formula_type macos_version k names acc tr).2
      = (tr ++ added)%list /\
    Forall (fun e => evaluator_event e = true) added /\
    (forall c,
        (get_status_loop w formula_type macos_version k names acc tr).1 <> SysExit c).
Proof.
  induction names as [| name names IH]; intros acc tr.
  - exists []. cbn. by rewrite app_nil_r.
  - rewrite get_status_loop_round.
    destruct (sendable (endpoint formula_type name)).
    + destruct (status_of_response _ _ _ _ _) as [rec | e | c] eqn:Hrec.
      * destruct (IH (acc ++ [rec])%list
                    (tr ++ events_of_response (api w (endpoint formula_type name))
                             formula_type name)%list)
          as (added & Htr & Hev & Hexit).
        destruct (requests_of_response (api w (endpoint formula_type name))
                    formula_type name) as [_ Hev1].
        exists (events_of_response (api w (endpoint formula_type name))
                  formula_type name ++ added)%list.
        repeat split; [by rewrite Htr, <- app_assoc | by apply Forall_app | exact Hexit].
      * exists [EvGet (endpoint formula_type name)]. cbn.
        repeat split; try done. by repeat constructor.
      * by apply status_of_response_no_exit in Hrec.
    + exists []. cbn. rewrite app_nil_r. by repeat split.
Qed.

Lemma requests_of_names (w : world) (formula_type : string) (names : list string) :
  requests (flat_map (fun name =>
              events_of_response (api w (endpoint formula_type name))
                formula_type name) names)
  = map (endpoint formula_type) names.
Proof.
  induction names as [| name names IH]; [reflexivity |].
  cbn [flat_map map]. unfold requests in *. rewrite omap_app, IH.
  by rewrite (proj1 (requests_of_response _ _ _)).
Qed.

(** Every list of names is classified throughout, or has a first name
    whose response is not. *)
Lemma first_unclassified (w : world) (formula_type macos_version k : string)
    (names : list string) :
  (exists recs,
      Forall2 (fun name rec =>
                 status_of_response (api w (endpoint formula_type name))
                   formula_type macos_version k name = Ret rec) names recs) \/
  (exists done name rest recs e,
      names = (done ++ name :: rest)%list /\
      Forall2 (fun name rec =>
                 status_of_response (api w (endpoint formula_type name))
                   formula_type macos_version k name = Ret rec) done recs /\
      status_of_response (api w (endpoint formula_type name))
        formula_type macos_version k name = Raise e).
Proof.
  induction names as [| name names IH]; [left; exists []; constructor |].
  destruct (status_of_response (api w (endpoint formula_type name))
              formula_type macos_version k name) as [rec | e | c] eqn:Hrec.
  - destruct IH as [[recs HF] | (done & name' & rest & recs & e & -> & HF & He)].
    + left. exists (rec :: recs). by constructor.
    + right. exists (name :: done), name', rest, (rec :: recs), e.
      repeat split; [by constructor | exact He].
  - right. exists [], name, names, [], e. repeat split; [constructor | exact Hrec].
  - by apply status_of_response_no_exit in Hrec.
Qed.

(** X5. For brew and for cask the evaluator sends one request per name,
    in the order of the names, up to the first name whose response it
    cannot classify, and none after it.  Either every name has a record:
    the run returns the records, and its trace holds the request, and for
    a response that is not a 200 the warning, of every name in order.  Or
    there is a first name without a record: the run raises what the
    classification of that name raises, and its trace holds the events of
    the names before it and the request of that name, nothing more. *)
Theorem get_status_requests (w : world) (names : list string)
    (formula_type macos_version : string) (tr : list event) :
  formula_type = "brew" \/ formula_type = "cask" ->
  (exists recs,
      Forall2 (fun name rec =>
                 status_of_response (api w (endpoint formula_type name))
                   formula_type macos_version (get_type formula_type) name
                 = Ret rec) names recs /\
      get_status w names formula_type macos_version tr
        = (Ret recs,
           (tr ++ flat_map (fun name =>
                    events_of_response (api w (endpoint formula_type name))
                      formula_type name) names)%list) /\
      requests (flat_map (fun name =>
                  events_of_response (api w (endpoint formula_type name))
                    formula_type name) names)
        = map (endpoint formula_type) names) \/
  (exists done name rest recs e,
      names = (done ++ name :: rest)%list /\
      Forall2 (fun name rec =>
                 status_of_response (api w (endpoint formula_type name))
                   formula_type macos_version (get_type formula_type) name
                 = Ret rec) done recs /\
      status_of_response (api w (endpoint formula_type name))
        formula_type macos_version (get_type formula_type) name = Raise e /\
      get_status w names formula_type macos_version tr
        = (Raise e,
           (tr ++ flat_map (fun name =>
                    events_of_response (api w (endpoint formula_type name))
                      formula_type name) done
               ++ [EvGet (endpoint formula_type name)])%list) /\
      requests (flat_map (fun name =>
                  events_of_response (api w (endpoint formula_type name))
                    formula_type name) done
                ++ [EvGet (endpoint formula_type name)])%list
        = map (endpoint formula_type) (done ++ [name])%list).
Proof.
  intros Hkind.
  pose proof (fun name => sendable_endpoint formula_type name Hkind) as Hsend.
  destruct (first_unclassified w formula_type macos_version
              (get_type formula_type) names)
    as [[recs HF] | (done & name & rest & recs & e & -> & HF & He)].
  - left. exists recs. split; [exact HF |]. split.
    + unfold get_status.
      by rewrite (get_status_loop_total _ _ _ _ _ Hsend _ [] tr HF).
    + apply requests_of_names.
  - right. exists done, name, rest, recs, e.
    split; [reflexivity |]. split; [exact HF |]. split; [exact He |]. split.
    + unfold get_status.
      by rewrite (get_status_loop_raises _ _ _ _ _ _ _ _ Hsend _ [] tr HF He).
    + unfold requests. rewrite omap_app, map_app.
      f_equal. apply requests_of_names.
Qed.

Lemma get_status_requests_witness :
  (exists recs,
      Forall2 (fun name rec =>
                 status_of_response
                   (if String.eqb (endpoint "brew" name) (endpoint "brew" "partial")
                    then ok (PyDict [("bottle", PyNone)]) else not_found)
                   "brew" "big_sur" "Bottle" name = Ret rec)
        ["curl"; "partial"; "wget"] recs) \/
  (exists done name rest recs e,
      ["curl"; "partial"; "wget"] = (done ++ name :: rest)%list /\
      Forall2 (fun name rec =>
                 status_of_response
                   (if String.eqb (endpoint "brew" name) (endpoint "brew" "partial")
                    then ok (PyDict [("bottle", PyNone)]) else not_found)
                   "brew" "big_sur" "Bottle" name = Ret rec) done recs /\
      get_status
        (mkWorld no_files
           (fun url => if String.eqb url (endpoint "brew" "partial")
                       then ok (PyDict [("bottle", PyNone)]) else not_found))
        ["curl"; "partial"; "wget"] "brew" "big_sur" []
        = (Raise e,
           (flat_map (fun name =>
              events_of_response
                (if String.eqb (endpoint "brew" name) (endpoint "brew" "partial")
                 then ok (PyDict [("bottle", PyNone)]) else not_found)
                "brew" name) done
            ++ [EvGet (endpoint "brew" name)])%list)).
Proof.
  destruct (get_status_requests
              (mkWorld no_files
                 (fun url => if String.eqb url (endpoint "brew" "partial")
                             then ok (PyDict [("bottle", PyNone)]) else not_found))
              ["curl"; "partial"; "wget"] "brew" "big_sur" [] (or_introl eq_refl))
    as [(recs & HF & _) | (done & name & rest & recs & e & Hn & HF & _ & Hrun & _)].
  - left. exists recs. exact HF.
  - right. exists done, name, rest, recs, e. repeat split; assumption.
Defined.

(** X6. A run of the evaluator that returns has one record per name, in
    the order of the names; every record carries the name, the kind of
    resource of the formula type and one of the four statuses, and its
    status is Unknown exactly when the response was not a 200. *)
Theorem get_status_records (w : world) (names : list string)
    (formula_type macos_version : string) (tr : list event)
    (recs : list SupportStatus) (tr' : list event) :
  get_status w names formula_type macos_version tr = (Ret recs, tr') ->
  map formula_name recs = names /\
  Forall (fun rec => kind rec = get_type formula_type /\
                     status rec ∈ status_values) recs /\
  Forall2 (fun name rec =>
             status rec = "Unknown" <->
             status_code (api w (endpoint formula_type name)) <> 200)
    names recs.
Proof.
  intros Hrun. apply get_status_loop_returns in Hrun as (recs' & -> & HF).
  rewrite app_nil_l. clear tr tr'.
  induction HF as [| name rec names recs Hrec _ (IH1 & IH2 & IH3)]; [done |].
  apply status_of_response_ret in Hrec as (Hname & Hkind & Hstatus & Hunknown).
  repeat split.
  - cbn. by rewrite Hname, IH1.
  - by constructor.
  - by constructor.
Qed.

Lemma get_status_records_witness :
  map formula_name
    [mkSupportStatus "Bottle" "wget" "Unknown";
     mkSupportStatus "Bottle" "curl" "Unknown"] = ["wget"; "curl"].
Proof.
  apply (get_status_records (mkWorld no_files (constant_api not_found))
           ["wget"; "curl"] "brew" "big_sur" []
           [mkSupportStatus "Bottle" "wget" "Unknown";
            mkSupportStatus "Bottle" "curl" "Unknown"]
           [EvGet "https://formulae.brew.sh/api/formula/wget.json";
            EvLog "WARNING" "Unknown formula: wget";
            EvGet "https://formulae.brew.sh/api/formula/curl.json";
            EvLog "WARNING" "Unknown formula: curl"]).
  vm_compute. reflexivity.
Defined.

Lemma get_status_loop_acc (w : world) (formula_type macos_version k : string)
    (names : list string) :
  forall acc tr,
    get_status_loop w formula_type macos_version k names acc tr =
      match get_status_loop w formula_type macos_version k names [] tr with
      | (Ret recs, tr') => (Ret (acc ++ recs)%list, tr')
      | other => other
      end.
Proof.
  induction names as [| name names IH]; intros acc tr.
  - cbn. by rewrite app_nil_r.
  - rewrite !get_status_loop_round.
    destruct (sendable (endpoint formula_type name)); [| done].
    destruct (status_of_response _ _ _ _ _) as [rec | e | c]; [| done | done].
    rewrite (IH (acc ++ [rec])%list), (IH ([] ++ [rec])%list).
    destruct (get_status_loop w formula_type macos_version k names [] _)
      as [[recs | e | c] tr']; [| done | done].
    by rewrite <- app_assoc.
Qed.

Lemma get_status_loop_app (w : world) (formula_type macos_version k : string)
    (names1 names2 : list string) :
  forall acc tr,
    get_status_loop w formula_type macos_version k (names1 ++ names2)%list acc tr =
      match get_status_loop w formula_type macos_version k names1 acc tr with
      | (Ret recs, tr') =>
          get_status_loop w formula_type macos_version k names2 recs tr'
      | other => other
      end.
Proof.
  induction names1 as [| name names1 IH]; intros acc tr; [done |].
  rewrite <- app_comm_cons, !get_status_loop_round.
  destruct (sendable (endpoint formula_type name)); [| done].
  destruct (status_of_response _ _ _ _ _) as [rec | e | c]; [| done | done].
  apply IH.
Qed.

(** X7. Evaluating a list of names is evaluating its parts one after the
    other: a run over [names1 ++ names2] is a run over [names1] followed,
    if it returns, by a run over [names2], and its records are the records
    of the two runs in that order.  A failure in the first part ends the
    whole run before the second part is started. *)
Theorem get_status_app (w : world) (names1 names2 : list string)
    (formula_type macos_version : string) (tr : list event) :
  get_status w (names1 ++ names2)%list formula_type macos_version tr =
    (recs1 ← get_status w names1 formula_type macos_version;
     recs2 ← get_status w names2 formula_type macos_version;
     mret (recs1 ++ recs2)%list) tr.
Proof.
  unfold get_status, mbind, IO_bind, Eff.bind, mret, IO_ret, Eff.ret.
  rewrite get_status_loop_app.
  destruct (get_status_loop w formula_type macos_version _ names1 [] tr)
    as [[recs1 | e | c] tr1]; [| done | done].
  rewrite get_status_loop_acc.
  by destruct (get_status_loop w formula_type macos_version _ names2 [] tr1)
    as [[recs2 | e | c] tr2].
Qed.

Lemma big_sur_in_every_list (k : string) (versions : list string) :
  support_matrix !! k = Some versions -> "big_sur" ∈ versions.
Proof.
  intros H. matrix_cases H; apply (bool_decide_unpack _); vm_compute; exact I.
Qed.

(** X8. For the target [big_sur], the default of the command line, no
    cask is ever recorded Unsupported: every list of the support matrix
    holds [big_sur], so a cask whose constraint resolves is Supported. *)
Theorem cask_big_sur_never_unsupported (w : world) (names : list string)
    (tr : list event) (recs : list SupportStatus) (tr' : list event) :
  get_status w names "cask" "big_sur" tr = (Ret recs, tr') ->
  forall rec, rec ∈ recs -> status rec <> "Unsupported".
Proof.
  intros Hrun rec Hin.
  apply get_status_loop_returns in Hrun as (recs' & -> & HF).
  rewrite app_nil_l in Hin.
  apply list_elem_of_lookup in Hin as [i Hi].
  destruct (Forall2_lookup_r _ _ _ _ _ HF Hi) as (name & _ & Hrec).
  revert Hrec. unfold status_of_response.
  destruct (status_code _ =? 200); [| by intros [= <-]].
  destruct (json _) as [content |]; [| discriminate].
  unfold status_of_content.
  destruct (get_supported_versions content "cask")
    as [versions | e | c] eqn:Hres; cbn.
  - apply get_supported_versions_cask_from_matrix in Hres as [k Hk].
    unfold contains. rewrite bool_decide_eq_true_2; [by intros [= <-] |].
    by eapply big_sur_in_every_list.
  - destruct e; cbn; try discriminate. by intros [= <-].
  - discriminate.
Qed.

Lemma cask_big_sur_never_unsupported_witness :
  get_status (mkWorld no_files (constant_api (ok (cask_body (PyStr "10.14")))))
    ["firefox"] "cask" "big_sur" []
    = (Ret [mkSupportStatus "Application" "firefox" "Supported"],
       [EvGet "https://formulae.brew.sh/api/cask/firefox.json"]) /\
  status (mkSupportStatus "Application" "firefox" "Supported") <> "Unsupported".
Proof.
  split; [vm_compute; reflexivity |].
  apply (cask_big_sur_never_unsupported
           (mkWorld no_files (constant_api (ok (cask_body (PyStr "10.14")))))
           ["firefox"] []
           [mkSupportStatus "Application" "firefox" "Supported"]
           [EvGet "https://formulae.brew.sh/api/cask/firefox.json"]).
  - vm_compute. reflexivity.
  - by left.
Defined.

(** X9. The evaluator does not check the formula type.  For a type that
    is neither brew nor cask the address it builds is [None/<name>.json],
    which [requests] refuses before anything is sent: a run over a list
    that is not empty raises at the first name, [InvalidSchema] when the
    address holds a colon and [MissingSchema] otherwise, with no request
    sent and no record returned; only the empty list returns. *)
Theorem get_status_other_type (w : world) (names : list string)
    (formula_type macos_version : string) (tr : list event) :
  formula_type <> "brew" -> formula_type <> "cask" ->
  get_status w names formula_type macos_version tr
    = match names with
      | [] => (Ret [], tr)
      | name :: _ => (Raise (refusal ("None/" ++ name ++ ".json")), tr)
      end.
Proof.
  intros Hb Hc. unfold get_status. destruct names as [| name names]; [done |].
  rewrite get_status_loop_round.
  destruct (endpoint_other_type formula_type name Hb Hc) as [-> ->].
  reflexivity.
Qed.

Lemma get_status_other_type_witness :
  get_status (mkWorld no_files (constant_api (ok (bottle_body ["big_sur"]))))
    ["fonts"; "wget"] "tap" "big_sur" []
  = (Raise MissingSchema, []).
Proof.
  apply (get_status_other_type
           (mkWorld no_files (constant_api (ok (bottle_body ["big_sur"]))))
           ["fonts"; "wget"] "tap" "big_sur" []); discriminate.
Defined.

(** ** The manifest reader, name by name *)

Lemma char_in_cons (c a : ascii) (s : string) :
  char_in c (String a s) = Ascii.eqb c a || char_in c s.
Proof. reflexivity. Qed.

Lemma char_in_closing (c : ascii) (s : string) :
  char_in c (s ++ String quote EmptyString) = char_in c s || Ascii.eqb c quote.
Proof.
  induction s as [| a s IH].
  - change (char_in c (String quote EmptyString) = false || Ascii.eqb c quote).
    rewrite char_in_cons. cbn. by rewrite orb_false_r.
  - change (String a s ++ String quote EmptyString)
      with (String a (s ++ String quote EmptyString)).
    rewrite !char_in_cons, IH. by rewrite orb_assoc.
Qed.

Lemma lazy_close_no_newline (s g : string) :
  lazy_close s = Some g -> char_in newline g = false.
Proof.
  revert g. induction s as [| c s IH]; intros g; [discriminate |]. cbn.
  destruct (Ascii.eqb c quote); [by intros [= <-] |].
  destruct (Ascii.eqb_spec c newline) as [| Hc]; [discriminate |].
  destruct (lazy_close s) as [g' |]; [| discriminate].
  intros [= <-]. rewrite char_in_cons, (IH g' eq_refl).
  rewrite orb_false_r. apply Ascii.eqb_neq. congruence.
Qed.

Lemma re_match_no_newline (s m : string) :
  re_match s = Some m -> char_in newline m = false.
Proof.
  destruct s as [| a [| c s]]; try discriminate. cbn.
  destruct (Ascii.eqb a quote); [| discriminate].
  destruct (Ascii.eqb_spec c newline) as [| Hc]; [discriminate |]. cbn.
  destruct (lazy_close s) as [g |] eqn:Hg; [| discriminate].
  intros [= <-]. rewrite !char_in_cons, char_in_closing.
  rewrite (lazy_close_no_newline _ _ Hg).
  replace (Ascii.eqb newline c) with false
    by (symmetry; apply Ascii.eqb_neq; congruence).
  reflexivity.
Qed.

Lemma re_search_no_newline (s m : string) :
  re_search s = Some m -> char_in newline m = false.
Proof.
  induction s as [| a s IH].
  - discriminate.
  - rewrite re_search_cons.
    destruct (re_match (String a s)) as [m' |] eqn:Hm; [| exact IH].
    intros [= <-]. by eapply re_match_no_newline.
Qed.

Lemma remove_quotes_no_quote (s : string) :
  char_in quote (remove_quotes s) = false.
Proof.
  induction s as [| c s IH]; [reflexivity |]. cbn [remove_quotes].
  destruct (Ascii.eqb_spec c quote) as [| Hc]; [exact IH |].
  rewrite char_in_cons, IH, orb_false_r. apply Ascii.eqb_neq. congruence.
Qed.

Lemma remove_quotes_char_in (c : ascii) (s : string) :
  char_in c s = false -> char_in c (remove_quotes s) = false.
Proof.
  induction s as [| a s IH]; [done |].
  rewrite char_in_cons. intros [Ha Hs]%orb_false_iff. cbn [remove_quotes].
  destruct (Ascii.eqb a quote); [by apply IH |].
  by rewrite char_in_cons, Ha, (IH Hs).
Qed.

Lemma get_formulae_reads (w : world) (brewfile formula_type text : string)
    (tr : list event) :
  formula_type = "brew" \/ formula_type = "cask" ->
  fs w brewfile = Some text ->
  get_formulae w brewfile formula_type tr
    = (Ret (declared_names (fun line => remove_quotes <$> re_search line)
              formula_type (readlines text)),
       (tr ++ [EvOpen brewfile])%list).
Proof.
  intros Hkind Hfile. unfold get_formulae.
  replace (metadata !! formula_type)
    with (Some (default "" (metadata !! formula_type)))
    by (by destruct Hkind as [-> | ->]).
  unfold mbind, IO_bind, Eff.bind, Eff.open_read. rewrite Hfile.
  unfold mret, IO_ret, Eff.ret. do 2 f_equal.
  by rewrite formulae_of_lines_declared.
Qed.

Lemma get_formulae_returns (w : world) (brewfile formula_type : string)
    (tr : list event) (names : list string) (tr' : list event) :
  get_formulae w brewfile formula_type tr = (Ret names, tr') ->
  exists text,
    fs w brewfile = Some text /\
    names = declared_names (fun line => remove_quotes <$> re_search line)
              formula_type (readlines text).
Proof.
  unfold get_formulae. destruct (metadata !! formula_type); [| discriminate].
  unfold mbind, IO_bind, Eff.bind, Eff.open_read.
  destruct (fs w brewfile) as [text |]; [| discriminate].
  unfold mret, IO_ret, Eff.ret. intros [= <- _]. exists text.
  by rewrite formulae_of_lines_declared.
Qed.

Lemma declared_names_clean (keyword : string) (lines : list string) :
  Forall (fun name => char_in quote name = false /\
                      char_in newline name = false)
    (declared_names (fun line => remove_quotes <$> re_search line) keyword lines).
Proof.
  unfold declared_names.
  induction lines as [| line lines IH]; [constructor |].
  cbn [flat_map]. apply Forall_app. split; [| exact IH].
  destruct (String.prefix keyword line); [| constructor].
  destruct (re_search line) as [m |] eqn:Hm; cbn; constructor; [| constructor].
  split; [apply remove_quotes_no_quote |].
  apply remove_quotes_char_in. by eapply re_search_no_newline.
Qed.

(** X10. No name the reader returns holds a double quote or a newline:
    the quotes of the match are removed and the pattern does not cross
    a newline. *)
Theorem get_formulae_names_clean (w : world) (brewfile formula_type : string)
    (tr : list event) (names : list string) (tr' : list event) :
  get_formulae w brewfile formula_type tr = (Ret names, tr') ->
  Forall (fun name => char_in quote name = false /\
                      char_in newline name = false) names.
Proof.
  intros H. apply get_formulae_returns in H as (text & _ & ->).
  apply declared_names_clean.
Qed.

Lemma get_formulae_names_clean_witness :
  get_formulae
    (mkWorld (one_file "Brewfile" empty_token_line) (constant_api not_found))
    "Brewfile" "brew" [] = (Ret [" "], [EvOpen "Brewfile"]) /\
  Forall (fun name => char_in quote name = false /\
                      char_in newline name = false) [" "].
Proof.
  split; [vm_compute; reflexivity |].
  apply (get_formulae_names_clean
           (mkWorld (one_file "Brewfile" empty_token_line) (constant_api not_found))
           "Brewfile" "brew" [] [" "] [EvOpen "Brewfile"]).
  vm_compute. reflexivity.
Defined.

Lemma readlines_from_app (a b : string) :
  forall cur,
    readlines_from cur (a ++ String newline b)
    = (readlines_from cur (a ++ String newline EmptyString)
       ++ readlines_from EmptyString b)%list.
Proof.
  induction a as [| c a IH]; intros cur.
  - change (EmptyString ++ String newline b) with (String newline b).
    change (EmptyString ++ String newline EmptyString)
      with (String newline EmptyString).
    reflexivity.
  - change (String c a ++ String newline b) with (String c (a ++ String newline b)).
    change (String c a ++ String newline EmptyString)
      with (String c (a ++ String newline EmptyString)).
    cbn [readlines_from]. destruct (Ascii.eqb c newline).
    + by rewrite IH.
    + apply IH.
Qed.

Lemma declared_names_app (token : string -> option string) (keyword : string)
    (lines1 lines2 : list string) :
  declared_names token keyword (lines1 ++ lines2)%list
  = (declared_names token keyword lines1
     ++ declared_names token keyword lines2)%list.
Proof. unfold declared_names. apply flat_map_app. Qed.

(** X11. Reading a manifest made of two texts, the first ended by a
    newline, gives the names of the first text followed by the names of
    the second. *)
Theorem get_formulae_app (w1 w2 w : world) (path1 path2 path : string)
    (formula_type text1 text2 : string) (tr1 tr2 tr : list event) :
  formula_type = "brew" \/ formula_type = "cask" ->
  fs w1 path1 = Some (text1 ++ String newline EmptyString) ->
  fs w2 path2 = Some text2 ->
  fs w path = Some (text1 ++ String newline text2) ->
  exists names1 names2,
    (get_formulae w1 path1 formula_type tr1).1 = Ret names1 /\
    (get_formulae w2 path2 formula_type tr2).1 = Ret names2 /\
    (get_formulae w path formula_type tr).1 = Ret (names1 ++ names2)%list.
Proof.
  intros Hkind H1 H2 H.
  rewrite (get_formulae_reads _ _ _ _ _ Hkind H1),
    (get_formulae_reads _ _ _ _ _ Hkind H2),
    (get_formulae_reads _ _ _ _ _ Hkind H).
  do 2 eexists. repeat split.
  unfold readlines. cbn [fst]. by rewrite readlines_from_app, declared_names_app.
Qed.

Lemma get_formulae_app_witness :
  exists names1 names2,
    (get_formulae
       (mkWorld (one_file "a" (brew_line (q ++ "wget" ++ q))) (constant_api not_found))
       "a" "brew" []).1 = Ret names1 /\
    (get_formulae
       (mkWorld (one_file "b" (brew_line (q ++ "curl" ++ q))) (constant_api not_found))
       "b" "brew" []).1 = Ret names2 /\
    (get_formulae
       (mkWorld (one_file "c" (("brew " ++ q ++ "wget" ++ q)
                               ++ String newline (brew_line (q ++ "curl" ++ q))))
          (constant_api not_found))
       "c" "brew" []).1 = Ret (names1 ++ names2)%list.
Proof.
  apply (get_formulae_app
           (mkWorld (one_file "a" (brew_line (q ++ "wget" ++ q))) (constant_api not_found))
           (mkWorld (one_file "b" (brew_line (q ++ "curl" ++ q))) (constant_api not_found))
           (mkWorld (one_file "c" (("brew " ++ q ++ "wget" ++ q)
                                   ++ String newline (brew_line (q ++ "curl" ++ q))))
              (constant_api not_found))
           "a" "b" "c" "brew" ("brew " ++ q ++ "wget" ++ q)
           (brew_line (q ++ "curl" ++ q)) [] [] []);
    [by left | vm_compute; reflexivity ..].
Defined.

Lemma prefix_brew_not_cask (line : string) :
  String.prefix "brew" line = true -> String.prefix "cask" line = false.
Proof.
  destruct line as [| c line]; [done |].
  change (String.prefix "brew" (String c line))
    with (if ascii_dec "b" c then String.prefix "rew" line else false).
  change (String.prefix "cask" (String c line))
    with (if ascii_dec "c" c then String.prefix "ask" line else false).
  destruct (ascii_dec "b" c) as [<- |]; [| done].
  by destruct (ascii_dec "c" "b").
Qed.

Lemma declared_names_two_kinds (token : string -> option string)
    (lines : list string) :
  (length (declared_names token "brew" lines)
   + length (declared_names token "cask" lines) <= length lines)%nat.
Proof.
  unfold declared_names.
  induction lines as [| line lines IH]; [done |].
  cbn [flat_map]. rewrite !length_app.
  assert (Hline :
    (length (if String.prefix "brew" line then option_list (token line) else [])
     + length (if String.prefix "cask" line then option_list (token line) else [])
     <= 1)%nat).
  { destruct (String.prefix "brew" line) eqn:Hb.
    - rewrite (prefix_brew_not_cask _ Hb). destruct (token line); cbn; lia.
    - destruct (String.prefix "cask" line); destruct (token line); cbn; lia. }
  cbn [length]. lia.
Qed.

(** X12. No line of a manifest is read both as a brew line and as a cask
    line, and a line gives at most one name: the names of the two kinds
    together are no more than the lines of the manifest. *)
Theorem get_formulae_two_kinds (w : world) (brewfile text : string)
    (tr1 tr2 : list event) :
  fs w brewfile = Some text ->
  exists core_formulae cask_formulae,
    (get_formulae w brewfile "brew" tr1).1 = Ret core_formulae /\
    (get_formulae w brewfile "cask" tr2).1 = Ret cask_formulae /\
    (length core_formulae + length cask_formulae <= length (readlines text))%nat.
Proof.
  intros Hfile.
  rewrite (get_formulae_reads _ _ _ _ _ (or_introl eq_refl) Hfile),
    (get_formulae_reads _ _ _ _ _ (or_intror eq_refl) Hfile).
  do 2 eexists. repeat split. apply declared_names_two_kinds.
Qed.

Lemma get_formulae_two_kinds_witness :
  exists core_formulae cask_formulae,
    (get_formulae
       (mkWorld (one_file "Brewfile" cask_args_line) (constant_api not_found))
       "Brewfile" "brew" []).1 = Ret core_formulae /\
    (get_formulae
       (mkWorld (one_file "Brewfile" cask_args_line) (constant_api not_found))
       "Brewfile" "cask" []).1 = Ret cask_formulae /\
    (length core_formulae + length cask_formulae
     <= length (readlines cask_args_line))%nat.
Proof.
  apply (get_formulae_two_kinds
           (mkWorld (one_file "Brewfile" cask_args_line) (constant_api not_found))
           "Brewfile" cask_args_line [] []).
  reflexivity.
Defined.

(** ** The command line, end to end *)

Lemma declared_names_readlines (keyword text : string) :
  declared_names (fun line => remove_quotes <$> re_search line) keyword (readlines text)
  = declared_names nonempty_quoted_token keyword (readlines text).
Proof.
  apply declared_names_ext.
  eapply Forall_impl; [apply readlines_newline_last |].
  intros line. apply re_search_token.
Qed.

(** The program once the arguments are accepted and the manifest is
    there: the two readings, the two evaluations, the table and the
    export. *)
Lemma cli_run (w : world) (args : arguments) (text : string) (tr : list event) :
  arg_macos_version args ∈ macos_versions ->
  fs w (arg_brewfile args) = Some text ->
  cli w args tr =
    match
      get_status w
        (declared_names nonempty_quoted_token "brew" (readlines text))
        "brew" (arg_macos_version args)
        (tr ++ [EvLog "INFO" "Brewfile exists!";
                EvLog "INFO" ("Using Brewfile: " ++ arg_brewfile args);
                EvLog "INFO" ("Checking compatibility for " ++ arg_macos_version args);
                EvLog "INFO" "Getting details from Homebrew API for formulae, hold on...";
                EvOpen (arg_brewfile args); EvOpen (arg_brewfile args)])%list
    with
    | (Ret result, tr1) =>
        match
          get_status w
            (declared_names nonempty_quoted_token "cask" (readlines text))
            "cask" (arg_macos_version args) tr1
        with
        | (Ret cask_result, tr2) =>
            (Ret tt,
             (tr2 ++ EvPrint (result ++ cask_result) ::
                (if arg_export args
                 then [EvWrite export_file (result ++ cask_result);
                       EvLog "INFO" ("Exported results to " ++ export_file)]
                 else []))%list)
        | (Raise e, tr2) => (Raise e, tr2)
        | (SysExit c, tr2) => (SysExit c, tr2)
        end
    | (Raise e, tr1) => (Raise e, tr1)
    | (SysExit c, tr1) => (SysExit c, tr1)
    end.
Proof.
  intros Hmv Hfile. unfold cli, contains.
  rewrite bool_decide_eq_true_2 by exact Hmv. cbn [negb]. rewrite Hfile.
  unfold mbind, IO_bind, Eff.bind, logger_info, Eff.emit.
  rewrite (get_formulae_reads _ _ _ _ _ (or_introl eq_refl) Hfile).
  rewrite (get_formulae_reads _ _ _ _ _ (or_intror eq_refl) Hfile).
  rewrite !declared_names_readlines, <- !app_assoc. cbn [app].
  destruct (get_status w _ "brew" _ _) as [[result | e | c] tr1]; [| done | done].
  destruct (get_status w _ "cask" _ _) as [[cask_result | e | c] tr2]; [| done | done].
  unfold display, export, Eff.emit, mret, IO_ret, Eff.ret.
  destruct (arg_export args); [| done].
  by rewrite <- !app_assoc.
Qed.

Lemma get_status_no_exit (w : world) (names : list string)
    (formula_type macos_version : string) (tr : list event) (c : Z) :
  (get_status w names formula_type macos_version tr).1 <> SysExit c.
Proof.
  destruct (get_status_loop_trace w formula_type macos_version
              (get_type formula_type) names [] tr)
    as (_ & _ & _ & Hexit).
  apply Hexit.
Qed.

(** X13. With an accepted target version, the program leaves through
    [sys.exit] in one case only, the missing manifest: it then exits with
    code 1 having logged the error and nothing else, no file opened and
    no request sent; with the manifest in place no exit is reached,
    whatever the API answers. *)
Theorem cli_exit (w : world) (args : arguments) (tr : list event) :
  arg_macos_version args ∈ macos_versions ->
  (fs w (arg_brewfile args) = None ->
   cli w args tr
     = (SysExit 1,
        (tr ++ [EvLog "ERROR"
                  ("Brewfile does not exist: " ++ arg_brewfile args ++ ". Exiting")])%list))
  /\
  (forall c, (cli w args tr).1 = SysExit c ->
             fs w (arg_brewfile args) = None /\ c = 1).
Proof.
  intros Hmv. split.
  - intros Hfile. unfold cli, contains.
    rewrite bool_decide_eq_true_2 by exact Hmv. cbn [negb]. by rewrite Hfile.
  - intros c. destruct (fs w (arg_brewfile args)) as [text |] eqn:Hfile.
    + rewrite (cli_run _ _ _ _ Hmv Hfile).
      match goal with
      | |- context [get_status w ?names "brew" ?mv ?t] =>
          pose proof (get_status_no_exit w names "brew" mv t) as Hexit1;
          destruct (get_status w names "brew" mv t) as [[result | e | c1] tr1]
      end; cbn [fst] in *; [| done | by destruct (Hexit1 c1)].
      match goal with
      | |- context [get_status w ?names "cask" ?mv ?t] =>
          pose proof (get_status_no_exit w names "cask" mv t) as Hexit2;
          destruct (get_status w names "cask" mv t) as [[cask_result | e | c2] tr2]
      end; cbn [fst] in *; [done | done | by destruct (Hexit2 c2)].
    + unfold cli, contains.
      rewrite bool_decide_eq_true_2 by exact Hmv. cbn [negb]. rewrite Hfile.
      by intros [= <-].
Qed.

Lemma cli_exit_witness :
  cli (mkWorld no_files (constant_api not_found))
    (mkArguments "Brewfile" "catalina" false true) []
  = (SysExit 1, [EvLog "ERROR" "Brewfile does not exist: Brewfile. Exiting"]).
Proof.
  apply (proj1 (cli_exit (mkWorld no_files (constant_api not_found))
                  (mkArguments "Brewfile" "catalina" false true) []
                  ltac:(apply (bool_decide_unpack _); vm_compute; exact I))).
  reflexivity.
Defined.







(** ** The exported text *)

Lemma string_app_cons (c : ascii) (s t : string) :
  String c s ++ t = String c (s ++ t).
Proof. reflexivity. Qed.

Lemma string_app_nil_l (s : string) : EmptyString ++ s = s.
Proof. reflexivity. Qed.

Lemma string_app_nil_r (s : string) : s ++ EmptyString = s.
Proof.
  induction s as [| c s IH]; [reflexivity |]. by rewrite string_app_cons, IH.
Qed.

Lemma string_app_assoc (s t u : string) : (s ++ t) ++ u = s ++ (t ++ u).
Proof.
  induction s as [| c s IH]; [reflexivity |].
  by rewrite !string_app_cons, IH.
Qed.

(** Reading a field back: from inside the field, the escaped text and its
    closing quote leave the reader after the quote, with the text of the
    field. *)
Lemma csv_decode_field (f : string) :
  forall acc fields rows rest,
    csv_decode (InField acc) fields rows (csv_escape f ++ String quote rest)
    = csv_decode (AfterQuote (acc ++ f)) fields rows rest.
Proof.
  induction f as [| c f IH]; intros acc fields rows rest.
  - by rewrite string_app_nil_r.
  - cbn [csv_escape]. destruct (Ascii.eqb_spec c quote) as [-> | Hc].
    + rewrite !string_app_cons. cbn [csv_decode].
      change (Ascii.eqb quote quote) with true. cbv beta iota.
      rewrite IH, string_app_assoc. reflexivity.
    + rewrite string_app_cons. cbn [csv_decode].
      destruct (Ascii.eqb_spec c quote); [done |].
      rewrite IH, string_app_assoc. reflexivity.
Qed.

Lemma writerow_three (a b c rest : string) :
  writerow [a; b; c] ++ rest
  = csv_field a ++ String ","%char (csv_field b ++ String ","%char
      (csv_field c ++ String carriage_return (String newline rest))).
Proof.
  unfold writerow. cbn [csv_fields].
  by rewrite !string_app_assoc, !string_app_cons, !string_app_assoc,
    !string_app_cons, string_app_nil_l.
Qed.

(** Reading a quoted field from its opening quote. *)
Lemma csv_decode_quoted (f : string) (fields : list string)
    (rows : list (list string)) (rest : string) :
  csv_decode AtField fields rows (csv_field f ++ rest)
  = csv_decode (AfterQuote f) fields rows rest.
Proof.
  unfold csv_field.
  rewrite string_app_cons, string_app_assoc, string_app_cons, string_app_nil_l.
  cbn [csv_decode]. change (Ascii.eqb quote quote) with true. cbv beta iota.
  by rewrite csv_decode_field, string_app_nil_l.
Qed.

Lemma csv_decode_row (a b c : string) (rows : list (list string)) (rest : string) :
  csv_decode AtField [] rows (writerow [a; b; c] ++ rest)
  = csv_decode AtField [] (rows ++ [[a; b; c]])%list rest.
Proof.
  rewrite writerow_three, csv_decode_quoted.
  change (csv_decode (AfterQuote a) [] rows (String ","%char ?s))
    with (csv_decode AtField [a] rows s).
  rewrite csv_decode_quoted.
  change (csv_decode (AfterQuote b) [a] rows (String ","%char ?s))
    with (csv_decode AtField [a; b] rows s).
  rewrite csv_decode_quoted. reflexivity.
Qed.

Lemma csv_decode_rows (recs : list SupportStatus) :
  forall rows rest,
    csv_decode AtField [] rows (export_rows recs ++ rest)
    = csv_decode AtField [] (rows ++ map fields_of recs)%list rest.
Proof.
  induction recs as [| rec recs IH]; intros rows rest.
  - cbn [export_rows map]. by rewrite string_app_nil_l, app_nil_r.
  - cbn [export_rows map]. rewrite string_app_assoc, csv_decode_row, IH.
    by rewrite <- app_assoc.
Qed.

Lemma fields_of_inj (recs1 recs2 : list SupportStatus) :
  map fields_of recs1 = map fields_of recs2 -> recs1 = recs2.
Proof.
  revert recs2. induction recs1 as [| [k1 n1 s1] recs1 IH];
    intros [| [k2 n2 s2] recs2]; try done.
  cbn. intros [= -> -> -> H]. f_equal. by apply IH.
Qed.

(** X16. The exported text can be read back: a reader of quoted fields
    finds the header row and then, for every record and in order, the row
    of its kind, name and status, whatever characters the names hold.  So
    two lists of records that differ are never exported to the same
    text. *)
Theorem export_text_read_back :
  (forall recs,
      csv_decode AtField [] [] (export_text recs)
      = Some (["kind"; "formula"; "status"] :: map fields_of recs)) /\
  (forall recs1 recs2, export_text recs1 = export_text recs2 -> recs1 = recs2).
Proof.
  assert (H : forall recs,
             csv_decode AtField [] [] (export_text recs)
             = Some (["kind"; "formula"; "status"] :: map fields_of recs)).
  { intros recs. unfold export_text.
    rewrite csv_decode_row, <- (string_app_nil_r (export_rows recs)),
      csv_decode_rows.
    reflexivity. }
  split; [exact H |].
  intros recs1 recs2 Heq. apply fields_of_inj.
  pose proof (H recs1) as H1. rewrite Heq, H in H1. by injection H1.
Qed.

Lemma export_text_read_back_witness :
  csv_decode AtField [] []
    (export_text [mkSupportStatus "Bottle" ("a" ++ q ++ "b,c") "No info"])
  = Some [["kind"; "formula"; "status"];
          ["Bottle"; "a" ++ q ++ "b,c"; "No info"]].
Proof.
  apply (proj1 export_text_read_back
           [mkSupportStatus "Bottle" ("a" ++ q ++ "b,c") "No info"]).
Defined.

Lemma count_char_app (c : ascii) (s t : string) :
  count_char c (s ++ t) = (count_char c s + count_char c t)%nat.
Proof.
  induction s as [| a s IH]; [reflexivity |].
  rewrite string_app_cons. cbn [count_char]. rewrite IH. lia.
Qed.

Lemma count_char_none (c : ascii) (s : string) :
  char_in c s = false -> count_char c s = 0%nat.
Proof.
  induction s as [| a s IH]; [reflexivity |].
  rewrite char_in_cons. intros [Ha Hs]%orb_false_iff. cbn [count_char].
  rewrite (IH Hs). rewrite Ascii.eqb_sym in Ha. by rewrite Ha.
Qed.

Lemma csv_escape_newlines (s : string) :
  count_char newline (csv_escape s) = count_char newline s.
Proof.
  induction s as [| a s IH]; [reflexivity |]. cbn [csv_escape].
  destruct (Ascii.eqb_spec a quote) as [-> | Ha]; cbn [count_char]; by rewrite IH.
Qed.

Lemma csv_escape_verbatim (s : string) :
  char_in quote s = false -> csv_escape s = s.
Proof.
  induction s as [| a s IH]; [reflexivity |].
  rewrite char_in_cons. intros [Ha Hs]%orb_false_iff. cbn [csv_escape].
  rewrite Ascii.eqb_sym in Ha. by rewrite Ha, (IH Hs).
Qed.

Lemma csv_field_newlines (s : string) :
  count_char newline (csv_field s) = count_char newline s.
Proof.
  unfold csv_field. cbn [count_char].
  rewrite count_char_app, csv_escape_newlines. cbn. lia.
Qed.

Lemma writerow_newlines (a b c : string) :
  count_char newline (writerow [a; b; c])
  = (count_char newline a + count_char newline b + count_char newline c + 1)%nat.
Proof.
  rewrite <- (string_app_nil_r (writerow [a; b; c])), writerow_three.
  repeat (rewrite count_char_app; cbn [count_char]).
  rewrite !csv_field_newlines. cbn. lia.
Qed.

Lemma get_type_no_newline (formula_type : string) :
  char_in newline (get_type formula_type) = false.
Proof.
  unfold get_type.
  destruct (String.eqb formula_type "cask"); [reflexivity |].
  by destruct (String.eqb formula_type "brew").
Qed.

Lemma status_values_no_newline (s : string) :
  s ∈ status_values -> char_in newline s = false.
Proof.
  unfold status_values. intros H.
  repeat (apply elem_of_cons in H; destruct H as [-> | H]); try reflexivity.
  by apply elem_of_nil in H.
Qed.

(** X17. Records of names read from a manifest are exported one per
    line: the name stands between its two quotes as it is, no character
    doubled, and the exported text has one newline for the header and one
    for each record. *)
Theorem export_text_lines (w : world) (brewfile formula_type : string)
    (tr : list event) (names : list string) (tr1 : list event)
    (formula_type' macos_version : string) (tr2 : list event)
    (recs : list SupportStatus) (tr3 : list event) :
  get_formulae w brewfile formula_type tr = (Ret names, tr1) ->
  get_status w names formula_type' macos_version tr2 = (Ret recs, tr3) ->
  Forall (fun rec =>
            csv_field (formula_name rec)
            = String quote (formula_name rec ++ String quote EmptyString)) recs /\
  count_char newline (export_text recs) = S (length recs).
Proof.
  intros Hnames Hrecs.
  apply get_formulae_returns in Hnames as (text & _ & ->).
  pose proof (declared_names_clean formula_type (readlines text)) as Hclean.
  revert Hclean Hrecs. generalize (declared_names
    (fun line => remove_quotes <$> re_search line) formula_type (readlines text)).
  intros names Hclean Hrecs.
  apply get_status_loop_returns in Hrecs as (recs' & -> & HF).
  rewrite app_nil_l. clear tr2 tr3.
  assert (Hall : Forall (fun rec =>
            char_in quote (formula_name rec) = false /\
            count_char newline (writerow (fields_of rec)) = 1%nat) recs').
  { revert Hclean.
    induction HF as [| name rec names' recs Hrec _ IH]; intros Hclean;
      [constructor |].
    apply Forall_cons in Hclean as [[Hq Hn] Hclean].
    apply status_of_response_ret in Hrec as (<- & Hkind & Hstatus & _).
    constructor; [| by apply IH]. split; [exact Hq |].
    unfold fields_of. rewrite writerow_newlines, Hkind.
    rewrite (count_char_none _ _ (get_type_no_newline formula_type')),
      (count_char_none _ _ Hn),
      (count_char_none _ _ (status_values_no_newline _ Hstatus)).
    reflexivity. }
  clear HF. split.
  - eapply Forall_impl; [exact Hall |]. intros rec [Hq _].
    unfold csv_field. by rewrite (csv_escape_verbatim _ Hq).
  - unfold export_text. rewrite count_char_app, writerow_newlines.
    change (count_char newline "kind" + count_char newline "formula"
            + count_char newline "status" + 1)%nat with 1%nat.
    cbn [Nat.add]. f_equal.
    induction Hall as [| rec recs [_ Hrow] _ IH]; [reflexivity |].
    cbn [export_rows length]. rewrite count_char_app.
    change (writerow [kind rec; formula_name rec; status rec])
      with (writerow (fields_of rec)).
    rewrite Hrow, IH. reflexivity.
Qed.

Lemma export_text_lines_witness :
  Forall (fun rec =>
            csv_field (formula_name rec)
            = String quote (formula_name rec ++ String quote EmptyString))
    [mkSupportStatus "Bottle" "wget" "Unknown"] /\
  count_char newline (export_text [mkSupportStatus "Bottle" "wget" "Unknown"]) = 2%nat.
Proof.
  apply (export_text_lines
           (mkWorld (one_file "Brewfile" (brew_line (q ++ "wget" ++ q)))
              (constant_api not_found))
           "Brewfile" "brew" [] ["wget"] [EvOpen "Brewfile"]
           "brew" "big_sur" []
           [mkSupportStatus "Bottle" "wget" "Unknown"]
           [EvGet "https://formulae.brew.sh/api/formula/wget.json";
            EvLog "WARNING" "Unknown formula: wget"]);
    vm_compute; reflexivity.
Defined.
